(** * Ticket AI browser client: conversation session and summary lookup

    A shallow embedding of the two page components of the client,
    [ConversationPage] (src/pages/index.tsx) and [SummaryPage]
    (the second component of src/pages/_document.tsx), together with the
    fragment of JavaScript they rely on, and the properties of their
    state transitions. *)

From Stdlib Require Import ZArith NArith Ascii String DecimalString Lia.
From stdpp Require Import base option list gmap.

(** ** The JavaScript fragment used by the two components *)

Module JS.

Local Open Scope N_scope.

(** A JavaScript string is a sequence of UTF-16 code units. *)
Abbreviation jsstring := (list N).

(** Code units of an ASCII literal. *)
Fixpoint js (s : String.string) : jsstring :=
  match s with
  | EmptyString => []
  | String c rest => N_of_ascii c :: js rest
  end.

(** [WhiteSpace] and [LineTerminator] code points of ECMAScript, the ones
    [String.prototype.trim] strips. All of them are in the basic plane. *)
Definition isWhiteSpace (c : N) : bool :=
  (c =? 9) || (c =? 10) || (c =? 11) || (c =? 12) || (c =? 13) ||
  (c =? 32) || (c =? 160) || (c =? 5760) ||
  ((8192 <=? c) && (c <=? 8202)) ||
  (c =? 8232) || (c =? 8233) || (c =? 8239) || (c =? 8287) ||
  (c =? 12288) || (c =? 65279).

Fixpoint trimStart (s : jsstring) : jsstring :=
  match s with
  | c :: rest => if isWhiteSpace c then trimStart rest else s
  | [] => []
  end.

Definition trimEnd (s : jsstring) : jsstring :=
  reverse (trimStart (reverse s)).

(** [s.trim()] *)
Definition trim (s : jsstring) : jsstring := trimEnd (trimStart s).

(** Values that [JSON.parse] and [response.json()] produce. Numbers are
    kept as integers, the only numbers the two components handle (clock
    readings, ticket ids, counts). An object is the list of its own
    properties in insertion order, one binding per key. *)
#[warnings="-register-all"]
Inductive json : Type :=
| JNull
| JBool (b : bool)
| JNum (n : Z)
| JStr (s : jsstring)
| JArr (items : list json)
| JObj (fields : list (jsstring * json)).

(** Induction on a value that reaches the items of an array. *)
Section JsonInduction.
  Variable P : json -> Prop.
  Hypothesis Hnull : P JNull.
  Hypothesis Hbool : forall b, P (JBool b).
  Hypothesis Hnum : forall n, P (JNum n).
  Hypothesis Hstr : forall s, P (JStr s).
  Hypothesis Harr : forall items, Forall P items -> P (JArr items).
  Hypothesis Hobj : forall fields, P (JObj fields).

Fixpoint json_items_ind (j : json) : P j :=
  match j with
  | JNull => Hnull
  | JBool b => Hbool b
  | JNum n => Hnum n
  | JStr s => Hstr s
  | JArr items =>
      Harr items
        ((fix each (l : list json) : Forall P l :=
            match l with
            | [] => @List.Forall_nil json P
            | x :: rest =>
                @List.Forall_cons json P x rest (json_items_ind x) (each rest)
            end) items)
  | JObj fields => Hobj fields
  end.

End JsonInduction.

(** A JavaScript value read out of such data: [undefined] or a value. *)
Inductive value : Type :=
| VUndefined
| VJson (j : json).

(** Abrupt completions: what a [throw] carries in the two components. *)
Inductive error : Type :=
| TypeError
| SyntaxError
| URIError
| NetworkError
| HttpError (status : Z).

Inductive completion (A : Type) : Type :=
| Normal (a : A)
| Throw (e : error).
Arguments Normal {A} a.
Arguments Throw {A} e.

(** [ToBoolean]: the falsy values are [undefined], [null], [false], [0]
    and the empty string. *)
Definition ToBoolean (v : value) : bool :=
  match v with
  | VUndefined => false
  | VJson JNull => false
  | VJson (JBool b) => b
  | VJson (JNum n) => negb (n =? 0)%Z
  | VJson (JStr []) => false
  | VJson _ => true
  end.

(** The own property [name] of an object, [undefined] without one. *)
Fixpoint lookupField (name : jsstring) (fields : list (jsstring * json))
  : value :=
  match fields with
  | [] => VUndefined
  | (k, v) :: rest =>
      if decide (k = name) then VJson v else lookupField name rest
  end.

(** [data.name] for a name that no prototype defines: a [TypeError] on
    [null], the own property on an object, [undefined] elsewhere. *)
Definition getProp (data : json) (name : jsstring) : completion value :=
  match data with
  | JNull => Throw TypeError
  | JObj fields => Normal (lookupField name fields)
  | _ => Normal VUndefined
  end.

(** [v || dflt] *)
Definition or_else (v : value) (dflt : json) : json :=
  match v with
  | VJson j => if ToBoolean v then j else dflt
  | VUndefined => dflt
  end.

(** The decimal digits of an integer: [n.toString()] for an integer that
    a number holds exactly, as a clock reading is. *)
Definition decimal (n : Z) : jsstring :=
  js (NilZero.string_of_int (Z.to_int n)).

(** *** [Number::toString] on integers

    [JNum n] stands for the number that [JSON.parse] makes of the integer
    literal [n]: the nearest double, ties to even, or infinity. *)

(** The double nearest to [n > 0], [None] for infinity. *)
Definition nearestDouble (n : Z) : option Z :=
  let e := (Z.log2 n - 52)%Z in
  if (e <=? 0)%Z then Some n
  else
    let q := Z.shiftr n e in
    let r := (n - Z.shiftl q e)%Z in
    let half := Z.shiftl 1 (e - 1) in
    let m := if (half <? r)%Z || ((r =? half)%Z && Z.odd q)
             then (q + 1)%Z else q in
    let v := Z.shiftl m e in
    if (Z.shiftl 1 1024 <=? v)%Z then None else Some v.

(** The multiple of [10^t] nearest to [v] among those that read back as
    [v], if there is one: those between [lo2 / 2] and [hi2 / 2], the
    ends counting when [closed]. Of two equally near, the one with the
    even digits. *)
Definition candidate (v lo2 hi2 : Z) (closed : bool) (t : Z) : option Z :=
  let p := (10 ^ t)%Z in
  let below := (v / p * p)%Z in
  let above := (below + p)%Z in
  let inside c :=
    if closed then ((lo2 <=? 2 * c) && (2 * c <=? hi2))%Z
    else ((lo2 <? 2 * c) && (2 * c <? hi2))%Z in
  match inside below, inside above with
  | true, true =>
      if (v - below <? above - v)%Z then Some below
      else if (above - v <? v - below)%Z then Some above
      else if Z.even (below / p) then Some below else Some above
  | true, false => Some below
  | false, true => Some above
  | false, false => None
  end.

(** The candidate with the fewest digits: the first one found from
    [10^t] down. *)
Fixpoint shortest (v lo2 hi2 : Z) (closed : bool) (t : nat) : Z :=
  match candidate v lo2 hi2 closed (Z.of_nat t) with
  | Some c => c
  | None =>
      match t with
      | O => v
      | S t' => shortest v lo2 hi2 closed t'
      end
  end.

(** The integer whose digits [Number::toString] prints for the double
    [v > 0]: [v] itself below [2^53], and from there the shortest decimal
    that reads back as [v], halfway to the neighbouring doubles. *)
Definition printed (v : Z) : Z :=
  let e := (Z.log2 v - 52)%Z in
  if (e <=? 0)%Z then v
  else
    let m := Z.shiftr v e in
    let gap := Z.shiftl 1 e in
    let gap_below :=
      if (m =? Z.shiftl 1 52)%Z then Z.shiftl 1 (e - 1) else gap in
    shortest v (2 * v - gap_below)%Z (2 * v + gap)%Z (Z.even m)
      (length (decimal v) - 1).

Fixpoint dropZeros (digits : jsstring) : jsstring :=
  match digits with
  | c :: rest => if (c =? 48)%N then dropZeros rest else digits
  | [] => []
  end.

(** The digits of [c > 0] as [Number::toString] lays them out: in full
    up to 21 digits, and with an exponent from there. *)
Definition layout (c : Z) : jsstring :=
  let digits := decimal c in
  if (length digits <=? 21)%nat then digits
  else
    let exponent := js "e+" ++ decimal (Z.of_nat (length digits - 1)) in
    match reverse (dropZeros (reverse digits)) with
    | [] => digits
    | [d] => d :: exponent
    | d :: more => d :: js "." ++ more ++ exponent
    end.

Definition Number_toString (n : Z) : jsstring :=
  let positive k :=
    match nearestDouble k with
    | Some v => layout (printed v)
    | None => js "Infinity"
    end in
  match n with
  | Z0 => js "0"
  | Zpos _ => positive n
  | Zneg _ => js "-" ++ positive (- n)%Z
  end.

(** [ToString], as a template literal applies it. An object with an own
    property [toString], which in parsed JSON is never a function, has
    no primitive value, and the conversion throws; any other object
    prints through [Object.prototype.toString]. An array is joined with
    commas, [null] elements giving the empty string. *)
Fixpoint ToString (j : json) : completion jsstring :=
  match j with
  | JNull => Normal (js "null")
  | JBool true => Normal (js "true")
  | JBool false => Normal (js "false")
  | JNum n => Normal (Number_toString n)
  | JStr s => Normal s
  | JArr items =>
      (fix join (l : list json) : completion jsstring :=
         match l with
         | [] => Normal []
         | x :: rest =>
             match match x with JNull => Normal [] | _ => ToString x end with
             | Throw e => Throw e
             | Normal piece =>
                 match rest with
                 | [] => Normal piece
                 | _ :: _ =>
                     match join rest with
                     | Normal more => Normal (piece ++ js "," ++ more)
                     | Throw e => Throw e
                     end
                 end
             end
         end) items
  | JObj fields =>
      match lookupField (js "toString") fields with
      | VUndefined => Normal (js "[object Object]")
      | VJson _ => Throw TypeError
      end
  end.

Definition ToStringValue (v : value) : completion jsstring :=
  match v with
  | VUndefined => Normal (js "undefined")
  | VJson j => ToString j
  end.

(** *** [encodeURIComponent] *)

Definition isUnreserved (c : N) : bool :=
  ((65 <=? c) && (c <=? 90)) || ((97 <=? c) && (c <=? 122)) ||
  ((48 <=? c) && (c <=? 57)) ||
  (c =? 45) || (c =? 95) || (c =? 46) || (c =? 33) || (c =? 126) ||
  (c =? 42) || (c =? 39) || (c =? 40) || (c =? 41).

Definition hexDigit (d : N) : N := if d <? 10 then 48 + d else 55 + d.

Definition percent (byte : N) : jsstring :=
  [37; hexDigit (byte / 16); hexDigit (byte mod 16)].

Definition utf8 (cp : N) : list N :=
  if cp <? 128 then [cp]
  else if cp <? 2048 then [192 + cp / 64; 128 + cp mod 64]
  else if cp <? 65536 then
    [224 + cp / 4096; 128 + (cp / 64) mod 64; 128 + cp mod 64]
  else
    [240 + cp / 262144; 128 + (cp / 4096) mod 64;
     128 + (cp / 64) mod 64; 128 + cp mod 64].

Definition escape (cp : N) : jsstring := mbind percent (utf8 cp).

Definition isHighSurrogate (c : N) : bool := (55296 <=? c) && (c <=? 56319).
Definition isLowSurrogate (c : N) : bool := (56320 <=? c) && (c <=? 57343).

Fixpoint encodeURIComponent (s : jsstring) : completion jsstring :=
  match s with
  | [] => Normal []
  | c :: rest =>
      if isUnreserved c then
        match encodeURIComponent rest with
        | Normal r => Normal (c :: r)
        | Throw e => Throw e
        end
      else if isLowSurrogate c then Throw URIError
      else if isHighSurrogate c then
        match rest with
        | d :: rest' =>
            if isLowSurrogate d then
              match encodeURIComponent rest' with
              | Normal r =>
                  Normal (escape ((c - 55296) * 1024 + (d - 56320) + 65536)
                            ++ r)
              | Throw e => Throw e
              end
            else Throw URIError
        | [] => Throw URIError
        end
      else
        match encodeURIComponent rest with
        | Normal r => Normal (escape c ++ r)
        | Throw e => Throw e
        end
  end.

(** *** Stateful code that may throw *)

Definition Eff (S A : Type) : Type := S -> completion A * S.

Definition ret {S A} (a : A) : Eff S A := fun s => (Normal a, s).

Definition throw {S A} (e : error) : Eff S A := fun s => (Throw e, s).

Definition bind {S A B} (m : Eff S A) (k : A -> Eff S B) : Eff S B :=
  fun s =>
    match m s with
    | (Normal a, s') => k a s'
    | (Throw e, s') => (Throw e, s')
    end.

(** A pure computation that may throw, run inside stateful code. *)
Definition lift {S A} (c : completion A) : Eff S A := fun s => (c, s).

(** A state update ([setX(...)]). *)
Definition update {S} (f : S -> S) : Eff S unit := fun s => (Normal tt, f s).

(** [try { body } catch (error) { handler(error) }]: the state changes
    the body made before it threw stay. *)
Definition try_catch {S A} (body : Eff S A) (handler : error -> Eff S A)
  : Eff S A :=
  fun s =>
    match body s with
    | (Normal a, s') => (Normal a, s')
    | (Throw e, s') => handler e s'
    end.

(** [try { body } finally { final }] *)
Definition try_finally {S A} (body : Eff S A) (final : Eff S unit)
  : Eff S A :=
  fun s =>
    match body s with
    | (c, s') =>
        match final s' with
        | (Normal _, s'') => (c, s'')
        | (Throw e, s'') => (Throw e, s'')
        end
    end.

(** *** What [fetch] gives back *)

(** [body] is what [response.json()] resolves to, [None] when the body
    is not JSON and the call rejects. *)
Record Response : Type := { status : Z; body : option json }.

Definition ok (r : Response) : bool :=
  ((200 <=? status r) && (status r <=? 299))%Z.

(** The promise of [fetch] rejects (the backend cannot be reached) or
    resolves to a response, whatever its status. *)
Inductive fetched : Type :=
| Rejected
| Resolved (r : Response).

(** A request handed to [fetch]; [payload] is the value whose JSON text
    is the request body. *)
Record Request : Type := {
  url : jsstring;
  method : jsstring;
  headers : list (jsstring * jsstring);
  payload : option json
}.

Definition await {S} (f : fetched) : Eff S Response :=
  match f with
  | Rejected => throw NetworkError
  | Resolved r => ret r
  end.

Definition response_json {S} (r : Response) : Eff S json :=
  match body r with
  | Some data => ret data
  | None => throw SyntaxError
  end.

End JS.

Declare Scope eff_scope.
Delimit Scope eff_scope with eff.
Notation "x <- m ;; k" := (JS.bind m (fun x => k))
  (at level 90, m at next level, right associativity) : eff_scope.
Notation "m ;;; k" := (JS.bind m (fun _ => k))
  (at level 90, right associativity) : eff_scope.

(** ** The conversation page (src/pages/index.tsx) *)

Module Conversation.
Import JS.

Inductive Sender : Type := user | ai.

(** [interface Message]; [isLoading] is an optional field. *)
Module Message.
Record t : Type := {
  id : jsstring;
  content : json;
  sender : Sender;
  timestamp : Z;
  isLoading : option bool
}.
End Message.

Definition SESSION_ID : jsstring := js "super-ai-chat-session".
Definition API_BASE_URL : jsstring := js "http://localhost:3002".

Section Texts.
Local Open Scope N_scope.

(** The text of the welcome turn. *)
Definition WELCOME : jsstring :=
  [55358; 56800] ++ js " **Welcome to Ticket AI!**" ++ [10; 10] ++
  js "I'm your intelligent ticket database assistant. I can help" ++
  js " you with:" ++ [10; 10; 55357; 56589] ++ js " **Smart Queries**" ++
  [10; 8226] ++ js " " ++ [34] ++ js "list all ticket IDs" ++ [34] ++
  js " - Get every ticket identifier" ++ [10; 8226] ++ js " " ++ [34] ++
  js "find tickets from john@email.com" ++ [34] ++
  js " - Search by customer" ++ [10; 8226] ++ js " " ++ [34] ++
  js "show open tickets" ++ [34] ++ js " - Filter by status" ++
  [10; 10; 55357; 56522] ++ js " **Database Insights**" ++ [10; 8226] ++
  js " " ++ [34] ++ js "explain how my data structure works" ++ [34] ++
  js " - Complete overview" ++ [10; 8226] ++ js " " ++ [34] ++
  js "what is a ticketID" ++ [34] ++ js " - Field explanations" ++
  [10; 10; 55357; 56580] ++ js " **Conversation Memory**" ++ [10; 8226] ++
  js " " ++ [34] ++ js "see more" ++ [34] ++
  js " - Continue from previous results" ++ [10; 8226] ++
  js " I remember our conversation context!" ++ [10; 10] ++
  js "Just ask me anything naturally. What would you like to" ++
  js " explore?".

(** The text of the turn shown when the chat request fails. *)
Definition CONNECTION_ERROR : jsstring :=
  [10060] ++ js " **Connection Error**" ++ [10; 10] ++
  js "I couldn't connect to the Super AI backend. Please make" ++
  js " sure:" ++ [10; 10; 8226] ++
  js " The backend server is running on `localhost:3002`" ++ [10; 8226] ++
  js " Run `npm run dev` in your backend directory" ++ [10; 8226] ++
  js " Check the console for any errors" ++ [10; 10] ++
  js "Try your message again once the backend is ready!".

(** The text used when the reply has no usable [response]. *)
Definition COULD_NOT_PROCESS : jsstring :=
  js "Sorry, I encountered an issue processing your request.".

End Texts.

(** The state of the component: its three [useState] cells. *)
Record State : Type := {
  messages : list Message.t;
  inputValue : jsstring;
  isLoading : bool
}.

Definition setMessages (f : list Message.t -> list Message.t) (st : State)
  : State :=
  {| messages := f (messages st);
     inputValue := inputValue st;
     isLoading := isLoading st |}.

Definition setInputValue (v : jsstring) (st : State) : State :=
  {| messages := messages st; inputValue := v; isLoading := isLoading st |}.

Definition setIsLoading (b : bool) (st : State) : State :=
  {| messages := messages st; inputValue := inputValue st; isLoading := b |}.

Definition initial : State :=
  {| messages := []; inputValue := []; isLoading := false |}.

(** The welcome turn; [now] is the reading of [new Date()]. *)
Definition welcomeMessage (now : Z) : Message.t :=
  {| Message.id := js "1";
     Message.content := JStr WELCOME;
     Message.sender := ai;
     Message.timestamp := now;
     Message.isLoading := None |}.

(** The mount effect, run once on the state of the first render. *)
Definition mount (now : Z) (st : State) : State :=
  if (length (messages st) =? 0)%nat
  then setMessages (fun _ => [welcomeMessage now]) st
  else st.

(** [handleInputChange], and the click on a suggestion. *)
Definition handleInputChange (v : jsstring) (st : State) : State :=
  setInputValue v st.

(** The clock readings [sendMessage] makes before the request: two of
    [Date.now()] and two of [new Date()]. *)
Record SendClock : Type := {
  now_user_id : Z;
  now_user : Z;
  now_loading_id : Z;
  now_loading : Z
}.

(** The clock readings made once the request has settled. *)
Record ReplyClock : Type := { now_reply_id : Z; now_reply : Z }.

Definition userMessage (clk : SendClock) (st : State) : Message.t :=
  {| Message.id := decimal (now_user_id clk);
     Message.content := JStr (trim (inputValue st));
     Message.sender := user;
     Message.timestamp := now_user clk;
     Message.isLoading := None |}.

Definition loadingMessage (clk : SendClock) : Message.t :=
  {| Message.id := decimal (now_loading_id clk + 1);
     Message.content := JStr [];
     Message.sender := ai;
     Message.timestamp := now_loading clk;
     Message.isLoading := Some true |}.

Definition chatRequest (clk : SendClock) (st : State) : Request :=
  {| url := API_BASE_URL ++ js "/chat";
     method := js "POST";
     headers := [(js "Content-Type", js "application/json")];
     payload :=
       Some (JObj [(js "message", Message.content (userMessage clk st));
                   (js "sessionId", JStr SESSION_ID)]) |}.

(** [sendMessage] up to its [await fetch(...)]: the new state and the
    request issued, [None] when the guard returns. *)
Definition sendMessage_start (clk : SendClock) (st : State)
  : State * option Request :=
  if negb (bool_decide (trim (inputValue st) <> [])) || isLoading st
  then (st, None)
  else
    (setIsLoading true
       (setInputValue []
          (setMessages
             (fun prev => prev ++ [userMessage clk st; loadingMessage clk])
             st)),
     Some (chatRequest clk st)).

Definition aiMessage (clk : ReplyClock) (text : json) : Message.t :=
  {| Message.id := decimal (now_reply_id clk + 2);
     Message.content := text;
     Message.sender := ai;
     Message.timestamp := now_reply clk;
     Message.isLoading := None |}.

Definition errorMessage (clk : ReplyClock) : Message.t :=
  aiMessage clk (JStr CONNECTION_ERROR).

(** [prev.slice(0, -1)] *)
Definition slice_0_m1 {A} (prev : list A) : list A :=
  take (length prev - 1) prev.

(** [prev => prev.slice(0, -1).concat([m])] *)
Definition replaceLast (m : Message.t) (prev : list Message.t)
  : list Message.t :=
  slice_0_m1 prev ++ [m].

Local Open Scope eff_scope.

(** The body of the [try] block once [fetch] has settled. *)
Definition sendMessage_try (clk : ReplyClock) (f : fetched)
  : Eff State unit :=
  response <- await f ;;
  (if negb (ok response) then throw (HttpError (status response))
   else ret tt) ;;;
  data <- response_json response ;;
  text <- lift (getProp data (js "response")) ;;
  update
    (setMessages
       (replaceLast (aiMessage clk (or_else text (JStr COULD_NOT_PROCESS))))).

(** The [catch] block ([console.error] leaves the state alone). *)
Definition sendMessage_catch (clk : ReplyClock) (e : error)
  : Eff State unit :=
  update (setMessages (replaceLast (errorMessage clk))).

(** [sendMessage] from the point where [fetch] settles with [f]. *)
Definition sendMessage_settle (clk : ReplyClock) (f : fetched)
  : Eff State unit :=
  try_finally
    (try_catch (sendMessage_try clk f) (sendMessage_catch clk))
    (update (setIsLoading false)).

(** One whole call of [sendMessage] whose request settles with [f]:
    how the returned promise completes, and the state it leaves. *)
Definition sendMessage (clk : SendClock) (clk' : ReplyClock) (f : fetched)
  (st : State) : completion unit * State :=
  match sendMessage_start clk st with
  | (st', None) => (Normal tt, st')
  | (st', Some _) => sendMessage_settle clk' f st'
  end.

(** What the view tests to show the typing indicator. *)
Definition pending (m : Message.t) : bool :=
  match Message.isLoading m with
  | Some b => b
  | None => false
  end.

Definition pendingCount (l : list Message.t) : nat :=
  length (List.filter pending l).

(** *** Executions of the page

    A handler runs against the state of the latest render. Between the
    two halves of a call of [sendMessage] other handlers may run; the
    calls suspended at their [await] are kept in [inflight]. *)
Record Page : Type := { state : State; inflight : list Request }.

Inductive event : Type :=
| InputChange (v : jsstring)   (* typing, or the click on a suggestion *)
| Send (clk : SendClock)       (* Enter, or the click on the button *)
| Settle (n : nat) (clk : ReplyClock) (f : fetched).

(** What one event does to the page, [None] when the event cannot
    occur: the textarea and the suggestion buttons are disabled while
    [isLoading] is set, so no input changes then; [sendMessage] has its
    own guard; [Settle n] resumes the [n]-th suspended call and needs
    one. *)
Definition step (e : event) (p : Page) : option Page :=
  match e with
  | InputChange v =>
      if isLoading (state p) then None
      else Some {| state := handleInputChange v (state p);
                   inflight := inflight p |}
  | Send clk =>
      let '(st', req) := sendMessage_start clk (state p) in
      Some {| state := st';
              inflight := inflight p ++ option_list req |}
  | Settle n clk f =>
      match inflight p !! n with
      | Some _ =>
          Some {| state := snd (sendMessage_settle clk f (state p));
                  inflight := delete n (inflight p) |}
      | None => None
      end
  end.

(** The page after its mount effect, and every state that follows. *)
Inductive running : Page -> Prop :=
| running_mount now :
    running {| state := mount now initial; inflight := [] |}
| running_step p e p' :
    running p -> step e p = Some p' -> running p'.

(** Every point of an execution: the first render, then the states
    reached once the mount effect has run. *)
Definition reachable (p : Page) : Prop :=
  p = {| state := initial; inflight := [] |} \/ running p.

(** The page after a list of events, [None] if one of them cannot occur. *)
Definition run (es : list event) (p : Page) : option Page :=
  foldl (fun acc e => acc ≫= step e) (Some p) es.

(** The two shapes of a page in an execution: no call suspended and no
    pending turn, or one call suspended, the input empty and the pending
    turn last. *)
Definition quiet (p : Page) : Prop :=
  isLoading (state p) = false /\ inflight p = [] /\
  pendingCount (messages (state p)) = 0%nat.

Definition waiting (p : Page) : Prop :=
  isLoading (state p) = true /\ length (inflight p) = 1%nat /\
  inputValue (state p) = [] /\
  exists prev m,
    messages (state p) = prev ++ [m] /\ pendingCount prev = 0%nat /\
    pending m = true.

(** The ways the backend call of a submit fails: [fetch] rejects, the
    status is not 2xx, or the body is not JSON. *)
Definition backendFailed (f : fetched) : bool :=
  match f with
  | Rejected => true
  | Resolved r =>
      negb (ok r) || match body r with None => true | Some _ => false end
  end.

End Conversation.

(** ** The summary page (second component of src/pages/_document.tsx) *)

Module Summary.
Import JS.

Definition API_BASE_URL : jsstring := js "http://localhost:3002".

(** The key of the recent searches in [localStorage]. *)
Definition RECENT_SEARCHES : jsstring := js "recent-searches".

(** An item of [localStorage], a string, kept as what the component can
    make of it: the empty string; a text that [JSON.parse] rejects; the
    JSON text of an array of strings, which is what [JSON.stringify]
    writes for the recent searches and what [JSON.parse] gives back; or
    the JSON text of any other value. *)
Inductive item : Type :=
| EmptyText
| NotJSON
| Strings (l : list jsstring)
| Other.

(** [JSON.stringify(l)] for an array of strings: the text that
    [JSON.parse] reads back as [l]. *)
Definition JSON_stringify (l : list jsstring) : item := Strings l.

(** The four [useState] cells of the component, at the types the
    component declares for them, followed by what it reaches outside
    itself: [localStorage] and the requests handed to [fetch] so far.
    [summaryData] is [null] or the [SummaryData] object. *)
Record State : Type := {
  searchQuery : jsstring;
  summaryData : json;
  isLoading : bool;
  recentSearches : list jsstring;
  localStorage : gmap jsstring item;
  requests : list Request
}.

Definition setSearchQuery (v : jsstring) (w : State) : State :=
  {| searchQuery := v; summaryData := summaryData w;
     isLoading := isLoading w; recentSearches := recentSearches w;
     localStorage := localStorage w; requests := requests w |}.

Definition setSummaryData (d : json) (w : State) : State :=
  {| searchQuery := searchQuery w; summaryData := d;
     isLoading := isLoading w; recentSearches := recentSearches w;
     localStorage := localStorage w; requests := requests w |}.

Definition setIsLoading (b : bool) (w : State) : State :=
  {| searchQuery := searchQuery w; summaryData := summaryData w;
     isLoading := b; recentSearches := recentSearches w;
     localStorage := localStorage w; requests := requests w |}.

Definition setRecentSearches (l : list jsstring) (w : State) : State :=
  {| searchQuery := searchQuery w; summaryData := summaryData w;
     isLoading := isLoading w; recentSearches := l;
     localStorage := localStorage w; requests := requests w |}.

(** [localStorage.setItem(key, JSON.stringify(l))] *)
Definition setItem (key : jsstring) (l : list jsstring) (w : State) : State :=
  {| searchQuery := searchQuery w; summaryData := summaryData w;
     isLoading := isLoading w; recentSearches := recentSearches w;
     localStorage := <[key := JSON_stringify l]> (localStorage w);
     requests := requests w |}.

Definition sent (r : Request) (w : State) : State :=
  {| searchQuery := searchQuery w; summaryData := summaryData w;
     isLoading := isLoading w; recentSearches := recentSearches w;
     localStorage := localStorage w; requests := requests w ++ [r] |}.

(** The first render over a given storage. *)
Definition initial (storage : gmap jsstring item) : State :=
  {| searchQuery := []; summaryData := JNull; isLoading := false;
     recentSearches := []; localStorage := storage; requests := [] |}.

(** How the mount effect ends: it returns, the state within its
    declared types; it throws; or it returns after it has set
    [recentSearches] to a value that is not an array of strings, where
    the state leaves [State]. *)
Inductive loaded : Type :=
| Mounted (w : State)
| Thrown (e : error)
| Untyped.

(** The mount effect: load the recent searches. [getItem] gives [null]
    when there is no item; [if (saved)] skips [null] and the empty
    string; [JSON.parse(saved)] throws a [SyntaxError] on a text that is
    not JSON, and its value goes to [setRecentSearches] as it is. *)
Definition mount (w : State) : loaded :=
  match localStorage w !! RECENT_SEARCHES with
  | None => Mounted w
  | Some EmptyText => Mounted w
  | Some NotJSON => Thrown SyntaxError
  | Some (Strings saved) => Mounted (setRecentSearches saved w)
  | Some Other => Untyped
  end.

Local Open Scope eff_scope.

(** [[query, ...recentSearches.filter(s => s !== query)].slice(0, 5)] *)
Definition updated (query : jsstring) (recentSearches : list jsstring)
  : list jsstring :=
  take 5 (query :: filter (fun s => s <> query) recentSearches).

(** [saveRecentSearch]; its first argument is the [recentSearches] of
    the render that created the function. *)
Definition saveRecentSearch (recentSearches : list jsstring)
  (query : jsstring) : Eff State unit :=
  update (setRecentSearches (updated query recentSearches)) ;;;
  update (setItem RECENT_SEARCHES (updated query recentSearches)).

(** The request that [fetch(url)] makes. *)
Definition getRequest (target : jsstring) : Request :=
  {| url := target; method := js "GET"; headers := []; payload := None |}.

(** [fetch(url)], settling with [f]. *)
Definition fetch (target : jsstring) (f : fetched) : Eff State Response :=
  update (sent (getRequest target)) ;;; await f.

(** The [message] put in the result by the [catch] block. *)
Definition COULD_NOT_CONNECT : jsstring :=
  js "Could not connect to the backend server. Make sure it's" ++
  js " running on localhost:3002".

(** The object stored by the [catch] block; [iso] is the reading of
    [new Date().toISOString()]. *)
Definition connectionFailed (identifier iso : jsstring) : json :=
  JObj [(js "success", JBool false);
        (js "identifier", JStr (trim identifier));
        (js "summary", JStr []);
        (js "conversationLength", JNum 0);
        (js "attachmentCount", JNum 0);
        (js "timestamp", JStr iso);
        (js "error", JStr (js "Connection failed"));
        (js "message", JStr COULD_NOT_CONNECT)].

(** The body of the [try] block. *)
Definition fetchSummary_try (recent : list jsstring) (identifier : jsstring)
  (f : fetched) : Eff State unit :=
  path <- lift (encodeURIComponent (trim identifier)) ;;
  response <- fetch (API_BASE_URL ++ js "/summarize/" ++ path) f ;;
  data <- response_json response ;;
  update (setSummaryData data) ;;;
  success <- lift (getProp data (js "success")) ;;
  if ToBoolean success then saveRecentSearch recent (trim identifier)
  else ret tt.

(** [fetchSummary(identifier)], where the request, if one is made,
    settles with [f]. *)
Definition fetchSummary (iso : jsstring) (f : fetched) (identifier : jsstring)
  : Eff State unit :=
  fun w =>
    if negb (bool_decide (trim identifier <> [])) then (Normal tt, w)
    else
      (update (setIsLoading true) ;;;
       update (setSummaryData JNull) ;;;
       try_finally
         (try_catch
            (fetchSummary_try (recentSearches w) identifier f)
            (fun _ =>
               update (setSummaryData (connectionFailed identifier iso))))
         (update (setIsLoading false))) w.

(** [handleSearch] *)
Definition handleSearch (iso : jsstring) (f : fetched) : Eff State unit :=
  fun w =>
    if bool_decide (trim (searchQuery w) <> [])
    then fetchSummary iso f (trim (searchQuery w)) w
    else (Normal tt, w).

(** The click on a quick example or on a recent search. *)
Definition pick (iso : jsstring) (f : fetched) (identifier : jsstring)
  : Eff State unit :=
  update (setSearchQuery identifier) ;;; fetchSummary iso f identifier.

(** *** What the results section shows *)

Definition NO_TICKET_FOUND : jsstring :=
  js "No ticket found with identifier: ".

(** The cards shown when [summaryData.ticket] is truthy: ticket id,
    ticket number, conversation length and attachment count. *)
Definition ticketCards (sd : json)
  : Eff State (option (value * value * value * value)) :=
  ticket <- lift (getProp sd (js "ticket")) ;;
  match ticket with
  | VJson t =>
      if ToBoolean ticket then
        ticketID <- lift (getProp t (js "ticketID")) ;;
        ticketNumber <- lift (getProp t (js "ticketNumber")) ;;
        conversationLength <- lift (getProp sd (js "conversationLength")) ;;
        attachmentCount <- lift (getProp sd (js "attachmentCount")) ;;
        ret (Some (ticketID, ticketNumber, conversationLength,
                   attachmentCount))
      else ret None
  | VUndefined => ret None
  end.

(** What the results section is made of: which of its four states it
    is in, and the values its expressions give it, before the timestamp
    is made a date and formatted and before React and the markdown
    component lay the values out. *)
Inductive View : Type :=
| LoadingState
| EmptyState
| SummaryGenerated (timestamp : value)
    (cards : option (value * value * value * value)) (summary : value)
| SummaryNotFound (message : json).

(** The right-hand side of the [||] in the error message, evaluated
    only when the left-hand side is falsy: the template literal
    [`No ticket found with identifier: ${summaryData.identifier}`]. *)
Definition defaultMessage (sd : json) : Eff State View :=
  identifier <- lift (getProp sd (js "identifier")) ;;
  text <- lift (ToStringValue identifier) ;;
  ret (SummaryNotFound (JStr (NO_TICKET_FOUND ++ text))).

(** The results section of the render. *)
Definition results : Eff State View :=
  fun w =>
    (if isLoading w then ret LoadingState
     else if ToBoolean (VJson (summaryData w)) then
       success <- lift (getProp (summaryData w) (js "success")) ;;
       if ToBoolean success then
         timestamp <- lift (getProp (summaryData w) (js "timestamp")) ;;
         cards <- ticketCards (summaryData w) ;;
         summary <- lift (getProp (summaryData w) (js "summary")) ;;
         ret (SummaryGenerated timestamp cards summary)
       else
         message <- lift (getProp (summaryData w) (js "message")) ;;
         match message with
         | VJson j =>
             if ToBoolean message then ret (SummaryNotFound j)
             else defaultMessage (summaryData w)
         | VUndefined => defaultMessage (summaryData w)
         end
     else ret EmptyState) w.

(** The logs that insertions build from the empty log. *)
Inductive logged : list jsstring -> Prop :=
| logged_empty : logged []
| logged_save query log : logged log -> logged (updated query log).

(** [text.startsWith(p)] and [text.includes(p)] *)
Fixpoint startsWith (p text : jsstring) : bool :=
  match p, text with
  | [], _ => true
  | a :: p', b :: text' => (a =? b)%N && startsWith p' text'
  | _ :: _, [] => false
  end.

Fixpoint includes (p text : jsstring) : bool :=
  startsWith p text ||
  match text with
  | [] => false
  | _ :: rest => includes p rest
  end.

End Summary.

(** ** Concrete runs *)

Module Scenario.
Import JS.

Definition sendClock : Conversation.SendClock :=
  {| Conversation.now_user_id := 1762000000000;
     Conversation.now_user := 1762000000000;
     Conversation.now_loading_id := 1762000000000;
     Conversation.now_loading := 1762000000001 |}.

Definition replyClock : Conversation.ReplyClock :=
  {| Conversation.now_reply_id := 1762000000850;
     Conversation.now_reply := 1762000000850 |}.

(** The page once the welcome turn is in place. *)
Definition greeted : Conversation.Page :=
  {| Conversation.state :=
       Conversation.mount 1761999990000 Conversation.initial;
     Conversation.inflight := [] |}.

(** The user types hello ... *)
Definition typed : Conversation.Page :=
  default greeted
    (Conversation.run [Conversation.InputChange (js "hello")] greeted).

(** ... and presses Enter: the request is under way. *)
Definition asked : Conversation.Page :=
  default typed (Conversation.run [Conversation.Send sendClock] typed).

(** Scenario A of the specification. *)
Definition ticketsReply : Response :=
  {| status := 200;
     body := Some (JObj [(js "response",
                          JStr (js "Here are your tickets..."))]) |}.

(** ... the reply of scenario A arrives. *)
Definition answered : Conversation.Page :=
  default asked
    (Conversation.run
       [Conversation.Settle 0 replyClock (Resolved ticketsReply)] asked).

(** A 200 reply whose [response] is the empty string. *)
Definition emptyReply : Response :=
  {| status := 200; body := Some (JObj [(js "response", JStr [])]) |}.

(** Scenario C of the specification. *)
Definition foundPayload : json :=
  JObj [(js "success", JBool true);
        (js "ticket",
         JObj [(js "ticketID", JNum 13000020);
               (js "ticketNumber", JStr (js "2025090610000020"))]);
        (js "summary", JStr (js "..."));
        (js "conversationLength", JNum 4);
        (js "attachmentCount", JNum 1);
        (js "timestamp", JStr (js "2025-01-01T00:00:00Z"))].

(** Scenario D of the specification. *)
Definition notFoundPayload : json :=
  JObj [(js "success", JBool false);
        (js "message", JStr (js "No ticket found"))].

(** A failure payload that names the identifier and has no message. *)
Definition echoPayload : json :=
  JObj [(js "success", JBool false);
        (js "identifier", JStr (js "nonexistent"))].

(** A failure payload whose identifier is an object with a [toString]
    of its own, which no template literal can print. *)
Definition unprintablePayload : json :=
  JObj [(js "success", JBool false);
        (js "identifier", JObj [(js "toString", JNull)])].

(** A failure payload with no message. *)
Definition barePayload : json := JObj [(js "success", JBool false)].

(** The summary page after its mount effect, nothing stored yet. *)
Definition opened : Summary.State :=
  match Summary.mount (Summary.initial ∅) with
  | Summary.Mounted w => w
  | _ => Summary.initial ∅
  end.

(** A storage whose log of recent searches holds an entry twice, as
    another script or an older page may have left it. *)
Definition untidyStorage : gmap jsstring Summary.item :=
  {[ Summary.RECENT_SEARCHES :=
       Summary.JSON_stringify [js "a"; js "a"; js "b"] ]}.



(** The reading of the clock in the lookups below. *)
Definition isoNow : jsstring := js "2025-01-01T00:00:05.000Z".

End Scenario.

(** ** The keyboard handlers, reloads and runs of lookups *)

Module Text.
Import JS.

(** The strings made of white space only. *)
Definition blank (s : jsstring) : bool := forallb isWhiteSpace s.




End Text.

Module Keyboard.
Import JS.

(** The two fields of a [React.KeyboardEvent] that the handlers read. *)
Record KeyboardEvent : Type := { key : jsstring; shiftKey : bool }.

End Keyboard.

Module ConversationHandlers.
Import JS Conversation Keyboard.

(** [handleKeyPress] of the conversation page, up to the [await] of the
    call of [sendMessage] it makes: whether [preventDefault] was called,
    the new state and the request issued. *)
Definition handleKeyPress (e : KeyboardEvent) (clk : SendClock) (st : State)
  : bool * (State * option Request) :=
  if bool_decide (key e = js "Enter") && negb (shiftKey e)
  then (true, sendMessage_start clk st)
  else (false, (st, None)).

(** The [disabled] attribute of the send button. *)
Definition sendDisabled (st : State) : bool :=
  negb (bool_decide (trim (inputValue st) <> [])) || isLoading st.

(** The turns of a transcript that are not pending. *)
Definition settled (l : list Message.t) : list Message.t :=
  List.filter (fun m => negb (pending m)) l.

(** The senders of a transcript of [n] exchanges after the welcome. *)
Fixpoint exchanges (n : nat) : list Sender :=
  match n with
  | O => [ai]
  | S k => exchanges k ++ [user; ai]
  end.

(** Whether the event is a submit that gets past the guard of
    [sendMessage], the submit that posts to the backend. *)
Definition accepts (e : event) (p : Page) : bool :=
  match e with
  | Send clk =>
      match snd (sendMessage_start clk (state p)) with
      | Some _ => true
      | None => false
      end
  | _ => false
  end.

(** The number of such submits among the events [es] run from [p]. *)
Fixpoint accepted (es : list event) (p : Page) : nat :=
  match es with
  | [] => 0
  | e :: rest =>
      match step e p with
      | Some p' => (if accepts e p then 1 else 0) + accepted rest p'
      | None => 0
      end
  end.

End ConversationHandlers.

Module SummaryHandlers.
Import JS Summary Keyboard.

(** [handleKeyPress] of the summary page, where the request of the
    lookup it starts settles with [f]. *)
Definition handleKeyPress (e : KeyboardEvent) (iso : jsstring) (f : fetched)
  : Eff State unit :=
  if bool_decide (key e = js "Enter") then handleSearch iso f else ret tt.

(** The [disabled] attribute of the search button. *)
Definition searchDisabled (w : State) : bool :=
  negb (bool_decide (trim (searchQuery w) <> [])) || isLoading w.



(** One call of [fetchSummary]: the clock reading it may make, what its
    request settles with, and its argument. *)
Record Lookup : Type := {
  clock : jsstring;
  settles : fetched;
  identifier : jsstring
}.

(** Calls of [fetchSummary] made one after the other. *)
Definition lookups (ls : list Lookup) (w : State) : State :=
  foldl (fun w l => snd (fetchSummary (clock l) (settles l) (identifier l) w))
    w ls.

(** A string that [trim] leaves as it is and that is not empty. *)
Definition trimmed (s : jsstring) : Prop := trim s = s /\ s <> [].

End SummaryHandlers.

(** ** Properties of the conversation page *)

Module ConversationFacts.
Import JS Conversation.

#[local] Arguments ok : simpl never.
#[local] Arguments or_else : simpl never.
#[local] Arguments trim : simpl never.
#[local] Arguments decimal : simpl never.
#[local] Arguments getProp : simpl never.
#[local] Arguments js : simpl never.

Lemma slice_0_m1_snoc {A} (l : list A) (x : A) : slice_0_m1 (l ++ [x]) = l.
Proof.
  unfold slice_0_m1. rewrite length_app. simpl.
  replace (length l + 1 - 1)%nat with (length l) by lia.
  by rewrite take_app_length.
Qed.

Lemma replaceLast_snoc m prev x : replaceLast m (prev ++ [x]) = prev ++ [m].
Proof. unfold replaceLast. by rewrite slice_0_m1_snoc. Qed.

Lemma pendingCount_app l1 l2 :
  pendingCount (l1 ++ l2) = (pendingCount l1 + pendingCount l2)%nat.
Proof. unfold pendingCount. by rewrite List.filter_app, length_app. Qed.

(** How a settled request is turned into the reply turn. *)
Lemma sendMessage_settle_run clk f st :
  exists reply,
    sendMessage_settle clk f st
    = (Normal tt, setIsLoading false (setMessages (replaceLast reply) st))
    /\ Message.sender reply = ai
    /\ Message.isLoading reply = None.
Proof.
  unfold sendMessage_settle, try_finally, try_catch, sendMessage_try,
    sendMessage_catch, bind, await, response_json, lift, update, throw, ret.
  destruct f as [|[st_code bd]]; simpl.
  - by eexists.
  - destruct (ok _); simpl; [|by eexists].
    destruct bd as [data|]; simpl; [|by eexists].
    destruct (getProp data _); simpl; by eexists.
Qed.

Lemma pendingCount_reply (reply : Message.t) :
  Message.isLoading reply = None -> pendingCount [reply] = 0%nat.
Proof. intros H. unfold pendingCount, pending. simpl. by rewrite H. Qed.

Lemma mounted_quiet now :
  quiet {| state := mount now initial; inflight := [] |}.
Proof. by repeat split. Qed.

(** A handler keeps the page in one of its two shapes. *)
Lemma step_shape e p p' :
  quiet p \/ waiting p -> step e p = Some p' -> quiet p' \/ waiting p'.
Proof.
  intros Hshape Hstep. destruct e as [v|clk|n clk f]; simpl in Hstep.
  - destruct (isLoading (state p)) eqn:Hidle; [done|]. injection Hstep as <-.
    destruct Hshape as [(_ & ? & ?)|(? & _)]; [|congruence].
    left. by repeat split.
  - unfold sendMessage_start in Hstep.
    destruct (negb _ || isLoading (state p)) eqn:Hguard;
      injection Hstep as <-; simpl.
    + rewrite app_nil_r. by destruct p.
    + apply orb_false_iff in Hguard as [_ Hidle].
      destruct Hshape as [(_ & Hnone & Hcount)|(Hbusy & _)]; [|congruence].
      right. repeat split; simpl.
      * by rewrite Hnone.
      * exists (messages (state p) ++ [userMessage clk (state p)]),
          (loadingMessage clk).
        repeat split.
        -- by rewrite <- app_assoc.
        -- by rewrite pendingCount_app, Hcount.
  - destruct (inflight p !! n) as [r|] eqn:Hn; [|done]. injection Hstep as <-.
    destruct Hshape
      as [(_ & Hnone & _)|(_ & Hone & _ & prev & m & Hm & Hprev & _)].
    { by rewrite Hnone in Hn. }
    destruct (sendMessage_settle_run clk f (state p))
      as (reply & -> & _ & Hreply).
    left. repeat split; simpl.
    + destruct (inflight p) as [|r0 [|r1 rest]]; try done.
      destruct n as [|n]; [done|]. by destruct n.
    + rewrite Hm, replaceLast_snoc, pendingCount_app, Hprev.
      by apply pendingCount_reply.
Qed.

Lemma running_shape p : running p -> quiet p \/ waiting p.
Proof.
  induction 1 as [now|p e p' _ IH Hstep].
  - left. apply mounted_quiet.
  - by eapply step_shape.
Qed.

(** C1. At every point of every execution of the conversation page the
    transcript holds at most one turn whose [isLoading] is set. *)
Theorem at_most_one_pending (p : Page) :
  reachable p -> (pendingCount (messages (state p)) <= 1)%nat.
Proof.
  intros [->|Hrun]; [unfold pendingCount; simpl; lia|].
  destruct (running_shape p Hrun)
    as [(_ & _ & ->)|(_ & _ & _ & prev & m & -> & Hprev & Hm)]; [lia|].
  rewrite pendingCount_app, Hprev. unfold pendingCount. simpl.
  rewrite Hm. simpl. lia.
Qed.

Lemma run_snoc es e p :
  run (es ++ [e]) p = run es p ≫= step e.
Proof. unfold run. by rewrite foldl_app. Qed.

Lemma run_running es p p' : running p -> run es p = Some p' -> running p'.
Proof.
  revert p'. induction es as [|e es IH] using rev_ind; intros p' Hp Hrun.
  - injection Hrun as <-. exact Hp.
  - rewrite run_snoc in Hrun. destruct (run es p) as [q|] eqn:Hq; [|done].
    eapply running_step; [by apply IH|exact Hrun].
Qed.

Lemma typed_reachable : reachable Scenario.typed.
Proof.
  right. apply (run_running [InputChange (js "hello")] Scenario.greeted).
  - apply running_mount.
  - reflexivity.
Qed.

Lemma asked_reachable : reachable Scenario.asked.
Proof.
  right.
  apply (run_running [InputChange (js "hello"); Send Scenario.sendClock]
           Scenario.greeted).
  - apply running_mount.
  - reflexivity.
Qed.

Lemma at_most_one_pending_witness :
  reachable Scenario.asked
  /\ (pendingCount (messages (state Scenario.asked)) <= 1)%nat.
Proof.
  split; [exact asked_reachable|].
  exact (at_most_one_pending Scenario.asked asked_reachable).
Defined.

(** A call made while nothing is under way appends the user turn and the
    pending turn, and the settled request replaces the latter. *)
Lemma sendMessage_idle clk clk' f st :
  trim (inputValue st) <> [] -> isLoading st = false ->
  exists reply,
    sendMessage_start clk st
    = ({| messages := messages st ++ [userMessage clk st; loadingMessage clk];
          inputValue := []; isLoading := true |},
       Some (chatRequest clk st))
    /\ sendMessage clk clk' f st
       = (Normal tt,
          {| messages := messages st ++ [userMessage clk st; reply];
             inputValue := []; isLoading := false |})
    /\ Message.sender reply = ai
    /\ Message.isLoading reply = None.
Proof.
  intros Htext Hidle.
  assert (Hstart : sendMessage_start clk st
    = ({| messages := messages st ++ [userMessage clk st; loadingMessage clk];
          inputValue := []; isLoading := true |},
       Some (chatRequest clk st))).
  { unfold sendMessage_start. rewrite Hidle, bool_decide_eq_true_2 by done.
    reflexivity. }
  unfold sendMessage. rewrite Hstart.
  destruct (sendMessage_settle_run clk' f
              {| messages := messages st
                             ++ [userMessage clk st; loadingMessage clk];
                 inputValue := []; isLoading := true |})
    as (reply & -> & Hsender & Hloading).
  exists reply. repeat split; try done.
  unfold setIsLoading, setMessages. simpl. do 2 f_equal.
  change [userMessage clk st; loadingMessage clk]
    with ([userMessage clk st] ++ [loadingMessage clk]).
  rewrite app_assoc, replaceLast_snoc. by rewrite <- app_assoc.
Qed.

(** In an execution, text in the input means that nothing is under way. *)
Lemma reachable_text_idle p :
  reachable p -> trim (inputValue (state p)) <> [] ->
  isLoading (state p) = false.
Proof.
  intros [->|Hrun] Htext; [done|].
  destruct (running_shape p Hrun) as [(Hidle & _)|(_ & _ & Hinput & _)];
    [done|].
  by rewrite Hinput in Htext.
Qed.

(** C2. Whenever the trimmed input is not empty, one call of
    [sendMessage] makes the transcript two turns longer, a user turn and
    an assistant turn that is first pending and then settled, whatever the
    request settles with. *)
Theorem submit_appends_two_turns (p : Page) clk clk' (f : fetched) :
  reachable p -> trim (inputValue (state p)) <> [] ->
  exists reply,
    messages (fst (sendMessage_start clk (state p)))
    = messages (state p) ++ [userMessage clk (state p); loadingMessage clk]
    /\ messages (snd (sendMessage clk clk' f (state p)))
       = messages (state p) ++ [userMessage clk (state p); reply]
    /\ Message.sender (userMessage clk (state p)) = user
    /\ Message.content (userMessage clk (state p))
       = JStr (trim (inputValue (state p)))
    /\ Message.sender (loadingMessage clk) = ai
    /\ pending (loadingMessage clk) = true
    /\ Message.sender reply = ai
    /\ pending reply = false
    /\ length (messages (snd (sendMessage clk clk' f (state p))))
       = (length (messages (state p)) + 2)%nat.
Proof.
  intros Hreach Htext.
  destruct (sendMessage_idle clk clk' f (state p) Htext
              (reachable_text_idle p Hreach Htext))
    as (reply & Hstart & Hcall & Hsender & Hloading).
  exists reply. rewrite Hstart, Hcall. simpl. repeat split; try done.
  - unfold pending. by rewrite Hloading.
  - by rewrite length_app.
Qed.

Lemma submit_appends_two_turns_witness :
  reachable Scenario.typed
  /\ trim (inputValue (state Scenario.typed)) <> []
  /\ exists reply,
       messages (fst (sendMessage_start Scenario.sendClock
                        (state Scenario.typed)))
       = messages (state Scenario.typed)
         ++ [userMessage Scenario.sendClock (state Scenario.typed);
             loadingMessage Scenario.sendClock]
       /\ messages (snd (sendMessage Scenario.sendClock Scenario.replyClock
                           Rejected (state Scenario.typed)))
          = messages (state Scenario.typed)
            ++ [userMessage Scenario.sendClock (state Scenario.typed); reply]
       /\ Message.sender
            (userMessage Scenario.sendClock (state Scenario.typed)) = user
       /\ Message.content
            (userMessage Scenario.sendClock (state Scenario.typed))
          = JStr (trim (inputValue (state Scenario.typed)))
       /\ Message.sender (loadingMessage Scenario.sendClock) = ai
       /\ pending (loadingMessage Scenario.sendClock) = true
       /\ Message.sender reply = ai
       /\ pending reply = false
       /\ length (messages (snd (sendMessage Scenario.sendClock
                                   Scenario.replyClock Rejected
                                   (state Scenario.typed))))
          = (length (messages (state Scenario.typed)) + 2)%nat.
Proof.
  assert (Htext : trim (inputValue (state Scenario.typed)) <> [])
    by (vm_compute; discriminate).
  split; [exact typed_reachable|]. split; [exact Htext|].
  exact (submit_appends_two_turns Scenario.typed Scenario.sendClock
           Scenario.replyClock Rejected typed_reachable Htext).
Defined.

(** C3, as the code has it. When the request settles with a 2xx response
    whose JSON body is not [null], the last turn, the pending one, is
    replaced where it stands by an assistant turn that is not pending;
    the content of that turn is the [response] property of the body when
    that property is truthy, and the fixed text when the property is
    missing or falsy (the empty string, for one). *)
Theorem reply_replaces_pending clk (st : State) prev m code data :
  messages st = prev ++ [m] ->
  ok {| status := code; body := Some data |} = true ->
  data <> JNull ->
  exists field reply,
    getProp data (js "response") = Normal field
    /\ sendMessage_settle clk
         (Resolved {| status := code; body := Some data |}) st
       = (Normal tt,
          {| messages := prev ++ [reply];
             inputValue := inputValue st;
             isLoading := false |})
    /\ reply = aiMessage clk (or_else field (JStr COULD_NOT_PROCESS))
    /\ Message.sender reply = ai
    /\ pending reply = false
    /\ (forall j, field = VJson j -> ToBoolean field = true ->
        Message.content reply = j)
    /\ (ToBoolean field = false ->
        Message.content reply = JStr COULD_NOT_PROCESS).
Proof.
  intros Hlast Hok Hdata.
  assert (Hfield : exists field, getProp data (js "response") = Normal field).
  { destruct data; try done; by eexists. }
  destruct Hfield as [field Hfield].
  exists field, (aiMessage clk (or_else field (JStr COULD_NOT_PROCESS))).
  split; [exact Hfield|]. split.
  - unfold sendMessage_settle, try_finally, try_catch, sendMessage_try,
      sendMessage_catch, bind, await, response_json, lift, update, throw, ret.
    simpl. rewrite Hok. simpl. rewrite Hfield. simpl.
    unfold setIsLoading, setMessages. simpl.
    by rewrite Hlast, replaceLast_snoc.
  - repeat split.
    + intros j -> Htruthy. simpl. unfold or_else. by rewrite Htruthy.
    + intros Hfalsy. simpl. unfold or_else. destruct field; [done|].
      by rewrite Hfalsy.
Qed.

Lemma reply_replaces_pending_witness :
  messages (state Scenario.asked)
  = (messages (state Scenario.typed)
     ++ [userMessage Scenario.sendClock (state Scenario.typed)])
    ++ [loadingMessage Scenario.sendClock]
  /\ ok Scenario.ticketsReply = true
  /\ JObj [(js "response", JStr (js "Here are your tickets..."))] <> JNull
  /\ exists reply,
       messages (snd (sendMessage_settle Scenario.replyClock
                        (Resolved Scenario.ticketsReply)
                        (state Scenario.asked)))
       = (messages (state Scenario.typed)
          ++ [userMessage Scenario.sendClock (state Scenario.typed)])
         ++ [reply]
       /\ Message.content reply = JStr (js "Here are your tickets...")
       /\ Message.sender reply = ai
       /\ pending reply = false.
Proof.
  assert (Hlast : messages (state Scenario.asked)
            = (messages (state Scenario.typed)
               ++ [userMessage Scenario.sendClock (state Scenario.typed)])
              ++ [loadingMessage Scenario.sendClock]) by reflexivity.
  assert (Hok : ok {| status := 200;
                      body := Some (JObj [(js "response",
                               JStr (js "Here are your tickets..."))]) |}
                = true) by reflexivity.
  assert (Hdata : JObj [(js "response", JStr (js "Here are your tickets..."))]
                  <> JNull) by discriminate.
  split; [exact Hlast|].
  split; [exact Hok|]. split; [exact Hdata|].
  destruct (reply_replaces_pending Scenario.replyClock (state Scenario.asked)
              _ _ 200 _ Hlast Hok Hdata)
    as (field & reply & Hfield & Hrun & _ & Hsender & Hpending & Hcontent & _).
  injection Hfield as <-. exists reply.
  unfold Scenario.ticketsReply. rewrite Hrun.
  split; [reflexivity|]. split; [|by split].
  exact (Hcontent _ eq_refl eq_refl).
Defined.

(** C3 as it is worded fails on a reply whose [response] is the empty
    string: the property is there, and the turn shows the fixed text. *)
Lemma empty_response_shows_fallback :
  ~ (forall clk (st : State) prev m code data j,
       messages st = prev ++ [m] ->
       ok {| status := code; body := Some data |} = true ->
       getProp data (js "response") = Normal (VJson j) ->
       exists reply,
         messages (snd (sendMessage_settle clk
                          (Resolved {| status := code; body := Some data |})
                          st))
         = prev ++ [reply]
         /\ Message.content reply = j).
Proof.
  intros Hclaim.
  destruct (Hclaim Scenario.replyClock (state Scenario.asked)
              (messages (state Scenario.typed)
               ++ [userMessage Scenario.sendClock (state Scenario.typed)])
              (loadingMessage Scenario.sendClock)
              200%Z (JObj [(js "response", JStr [])]) (JStr [])
              eq_refl eq_refl eq_refl)
    as (reply & Hmessages & Hcontent).
  apply app_inv_head in Hmessages. injection Hmessages as <-.
  discriminate Hcontent.
Qed.

(** C4. When the request fails, by a rejected [fetch], a status outside
    2xx or a body that is not JSON, the last turn, the pending one, is
    replaced by an assistant turn that is not pending and holds the fixed
    connection-error text; and whatever the request settles with, the
    call completes normally. *)
Theorem failure_replaces_pending clk (f : fetched) (st : State) prev m :
  backendFailed f = true ->
  messages st = prev ++ [m] ->
  sendMessage_settle clk f st
  = (Normal tt,
     {| messages := prev ++ [errorMessage clk];
        inputValue := inputValue st;
        isLoading := false |})
  /\ Message.content (errorMessage clk) = JStr CONNECTION_ERROR
  /\ Message.sender (errorMessage clk) = ai
  /\ pending (errorMessage clk) = false
  /\ (forall clk0 f0 st0, fst (sendMessage clk0 clk f0 st0) = Normal tt).
Proof.
  intros Hfailed Hlast. split; [|repeat split].
  - unfold sendMessage_settle, try_finally, try_catch, sendMessage_try,
      sendMessage_catch, bind, await, response_json, lift, update, throw, ret.
    unfold setIsLoading, setMessages.
    destruct f as [|[code bd]]; simpl in *.
    + by rewrite Hlast, replaceLast_snoc.
    + destruct (ok _); simpl in *.
      * destruct bd; [done|]. simpl. by rewrite Hlast, replaceLast_snoc.
      * by rewrite Hlast, replaceLast_snoc.
  - intros clk0 f0 st0. unfold sendMessage.
    destruct (sendMessage_start clk0 st0) as [st' [req|]]; [|done].
    by destruct (sendMessage_settle_run clk f0 st') as (reply & -> & _).
Qed.

Lemma failure_replaces_pending_witness :
  backendFailed Rejected = true
  /\ messages (state Scenario.asked)
     = (messages (state Scenario.typed)
        ++ [userMessage Scenario.sendClock (state Scenario.typed)])
       ++ [loadingMessage Scenario.sendClock]
  /\ sendMessage_settle Scenario.replyClock Rejected (state Scenario.asked)
     = (Normal tt,
        {| messages :=
             (messages (state Scenario.typed)
              ++ [userMessage Scenario.sendClock (state Scenario.typed)])
             ++ [errorMessage Scenario.replyClock];
           inputValue := inputValue (state Scenario.asked);
           isLoading := false |}).
Proof.
  split; [reflexivity|]. split; [reflexivity|].
  exact (proj1 (failure_replaces_pending Scenario.replyClock Rejected
                  (state Scenario.asked)
                  (messages (state Scenario.typed)
                   ++ [userMessage Scenario.sendClock (state Scenario.typed)])
                  (loadingMessage Scenario.sendClock) eq_refl eq_refl)).
Defined.

End ConversationFacts.

(** ** Properties of the summary page *)

Module SummaryFacts.
Import JS Summary.

#[local] Arguments trim : simpl never.
#[local] Arguments getProp : simpl never.
#[local] Arguments js : simpl never.
#[local] Arguments encodeURIComponent : simpl never.
#[local] Arguments updated : simpl never.
#[local] Arguments connectionFailed : simpl never.
#[local] Arguments ToBoolean : simpl never.

(** Reduce the projections of a state that is written out. *)
Ltac project :=
  cbn [fst snd searchQuery summaryData isLoading recentSearches localStorage
       requests head].

Ltac run_eff :=
  unfold fetchSummary, fetchSummary_try, saveRecentSearch, fetch,
    try_finally, try_catch, bind, await, response_json, lift, update,
    throw, ret;
  simpl.

(** A lookup whose response body is JSON other than [null]: the body is
    stored, and the log is updated when its [success] is truthy. *)
Lemma fetchSummary_json iso code data identifier path (w : State) success :
  trim identifier <> [] ->
  encodeURIComponent (trim identifier) = Normal path ->
  getProp data (js "success") = Normal success ->
  fetchSummary iso (Resolved {| status := code; body := Some data |})
    identifier w
  = (Normal tt,
     {| searchQuery := searchQuery w;
        summaryData := data;
        isLoading := false;
        recentSearches :=
          if ToBoolean success
          then updated (trim identifier) (recentSearches w)
          else recentSearches w;
        localStorage :=
          if ToBoolean success
          then <[RECENT_SEARCHES :=
                   JSON_stringify (updated (trim identifier)
                                     (recentSearches w))]> (localStorage w)
          else localStorage w;
        requests :=
          requests w
          ++ [getRequest (API_BASE_URL ++ js "/summarize/" ++ path)] |}).
Proof.
  intros Htext Hpath Hsuccess. run_eff.
  rewrite bool_decide_eq_true_2 by done. simpl.
  rewrite Hpath. simpl. rewrite Hsuccess. simpl.
  by destruct (ToBoolean success).
Qed.

(** A lookup whose request is made and fails below the payload level
    ends in the record of the [catch] block and leaves the log alone. *)
Lemma fetchSummary_failed iso (f : fetched) identifier path (w : State) :
  trim identifier <> [] ->
  encodeURIComponent (trim identifier) = Normal path ->
  f = Rejected
  \/ (exists code, f = Resolved {| status := code; body := None |})
  \/ (exists code, f = Resolved {| status := code; body := Some JNull |}) ->
  fetchSummary iso f identifier w
  = (Normal tt,
     {| searchQuery := searchQuery w;
        summaryData := connectionFailed identifier iso;
        isLoading := false;
        recentSearches := recentSearches w;
        localStorage := localStorage w;
        requests :=
          requests w
          ++ [getRequest (API_BASE_URL ++ js "/summarize/" ++ path)] |}).
Proof.
  intros Htext Hpath Hf. run_eff.
  rewrite bool_decide_eq_true_2 by done. simpl. rewrite Hpath. simpl.
  by destruct Hf as [->|[[code ->]|[code ->]]].
Qed.

(** A lookup whose identifier cannot be escaped makes no request and
    ends in the same record. *)
Lemma fetchSummary_unescapable iso (f : fetched) identifier e (w : State) :
  trim identifier <> [] ->
  encodeURIComponent (trim identifier) = Throw e ->
  fetchSummary iso f identifier w
  = (Normal tt,
     {| searchQuery := searchQuery w;
        summaryData := connectionFailed identifier iso;
        isLoading := false;
        recentSearches := recentSearches w;
        localStorage := localStorage w;
        requests := requests w |}).
Proof.
  intros Htext Hpath. run_eff.
  rewrite bool_decide_eq_true_2 by done. simpl. by rewrite Hpath.
Qed.

(** *** The log of recent searches *)

(** Non-membership in an explicit list, from pairwise disequalities. *)
Ltac distinct :=
  rewrite ?not_elem_of_cons;
  repeat split; try apply not_elem_of_nil; intuition congruence.

Lemma updated_cons (query : jsstring) (log : list jsstring) :
  updated query log = query :: take 4 (filter (fun s => s <> query) log).
Proof. reflexivity. Qed.

Lemma filter_absent (query : jsstring) (log : list jsstring) :
  query ∉ log -> filter (fun s => s <> query) log = log.
Proof.
  induction log as [|s log IH]; [done|]. intros Habsent.
  apply not_elem_of_cons in Habsent as [Hne Habsent].
  rewrite filter_cons_True by done. by rewrite IH.
Qed.

Lemma updated_fresh (query : jsstring) (log : list jsstring) :
  query ∉ log -> updated query log = take 5 (query :: log).
Proof. intros Habsent. unfold updated. by rewrite filter_absent. Qed.

Lemma length_updated (query : jsstring) (log : list jsstring) :
  (length (updated query log) <= 5)%nat.
Proof. unfold updated. rewrite length_take. lia. Qed.

Lemma NoDup_updated (query : jsstring) (log : list jsstring) :
  NoDup log -> NoDup (updated query log).
Proof.
  intros Hlog. unfold updated.
  eapply sublist_NoDup; [|apply sublist_take].
  apply NoDup_cons. split.
  - rewrite list_elem_of_filter. by intros [Hne _].
  - by apply NoDup_filter.
Qed.

Lemma logged_valid (log : list jsstring) :
  logged log -> (length log <= 5)%nat /\ NoDup log.
Proof.
  induction 1 as [|query log _ [_ IH]].
  - split; [simpl; lia|constructor].
  - split; [apply length_updated|by apply NoDup_updated].
Qed.

(** A lookup keeps the log among those built by insertions. *)
Lemma fetchSummary_logged iso (f : fetched) identifier (w : State) :
  logged (recentSearches w) ->
  logged (recentSearches (snd (fetchSummary iso f identifier w))).
Proof.
  intros Hlog.
  destruct (decide (trim identifier = [])) as [Hblank|Htext].
  { unfold fetchSummary. by rewrite bool_decide_eq_false_2 by tauto. }
  destruct (encodeURIComponent (trim identifier)) as [path|e] eqn:Hpath.
  2: { by erewrite fetchSummary_unescapable. }
  destruct f as [|[code [data|]]].
  - erewrite fetchSummary_failed; eauto.
  - destruct (getProp data (js "success")) as [success|e] eqn:Hsuccess.
    + erewrite fetchSummary_json by done. simpl.
      destruct (ToBoolean success); [by constructor|done].
    + destruct data; try done. erewrite fetchSummary_failed; eauto.
  - erewrite fetchSummary_failed; eauto.
Qed.

(** A lookup keeps a log of at most five entries without duplicates
    such. *)
Lemma fetchSummary_tidy iso (f : fetched) identifier (w : State) :
  (length (recentSearches w) <= 5)%nat /\ NoDup (recentSearches w) ->
  (length (recentSearches (snd (fetchSummary iso f identifier w))) <= 5)%nat
  /\ NoDup (recentSearches (snd (fetchSummary iso f identifier w))).
Proof.
  intros [Hlen Hnodup].
  destruct (decide (trim identifier = [])) as [Hblank|Htext].
  { unfold fetchSummary. by rewrite bool_decide_eq_false_2 by tauto. }
  destruct (encodeURIComponent (trim identifier)) as [path|e] eqn:Hpath.
  2: { by erewrite fetchSummary_unescapable. }
  destruct f as [|[code [data|]]].
  - erewrite fetchSummary_failed; eauto.
  - destruct (getProp data (js "success")) as [success|e] eqn:Hsuccess.
    + erewrite fetchSummary_json by done. simpl.
      destruct (ToBoolean success); [|done].
      split; [apply length_updated|by apply NoDup_updated].
    + destruct data; try done. erewrite fetchSummary_failed; eauto.
  - erewrite fetchSummary_failed; eauto.
Qed.

Lemma lookups_tidy (ls : list SummaryHandlers.Lookup) (w : State) :
  (length (recentSearches w) <= 5)%nat /\ NoDup (recentSearches w) ->
  (length (recentSearches (SummaryHandlers.lookups ls w)) <= 5)%nat
  /\ NoDup (recentSearches (SummaryHandlers.lookups ls w)).
Proof.
  revert w. induction ls as [|l ls IH]; intros w Htidy; [done|].
  apply IH. by apply fetchSummary_tidy.
Qed.

(** The mount effect returns within the declared types when there is no
    item, when the item is empty, and when it is the JSON text of an
    array of strings, which it loads. *)
Lemma mount_cases storage (page : State) :
  mount (initial storage) = Mounted page ->
  (page = initial storage
   /\ (storage !! RECENT_SEARCHES = None
       \/ storage !! RECENT_SEARCHES = Some EmptyText))
  \/ (exists saved,
        storage !! RECENT_SEARCHES = Some (JSON_stringify saved)
        /\ page = setRecentSearches saved (initial storage)).
Proof.
  unfold mount. simpl.
  destruct (storage !! RECENT_SEARCHES) as [[| |saved|]|]; try done;
    intros [= <-]; [left|right|left]; eauto.
Qed.

(** C7, as the code has it. A lookup whose response has [success] true
    makes the recent searches of the page the insertion of the trimmed
    identifier into the log it found. Inserting an identifier that the
    log already holds leaves one occurrence of it, in first place,
    followed by the other entries in their order (all of them when the
    log was built by insertions); six distinct identifiers inserted into
    the empty log leave the last five, latest first; the result of an
    insertion has at most five entries, and no duplicates when the log
    had none. So a page whose mount effect has loaded a stored log of at
    most five entries without duplicates, or none, keeps such a log
    through all its lookups; a stored log is taken as it is found. *)
Theorem recent_log_insertion (log : list jsstring) (q a b c d e f : jsstring)
  iso code data identifier path (w : State) storage (page : State)
  (ls : list SummaryHandlers.Lookup) :
  (trim identifier <> [] ->
   encodeURIComponent (trim identifier) = Normal path ->
   getProp data (js "success") = Normal (VJson (JBool true)) ->
   recentSearches
     (snd (fetchSummary iso
             (Resolved {| status := code; body := Some data |})
             identifier w))
   = updated (trim identifier) (recentSearches w)
   /\ localStorage
        (snd (fetchSummary iso
                (Resolved {| status := code; body := Some data |})
                identifier w)) !! RECENT_SEARCHES
      = Some (JSON_stringify (updated (trim identifier) (recentSearches w))))
  /\ (q ∈ log ->
      exists rest,
        updated q log = q :: rest /\ (q ∉ rest) /\ (rest `sublist_of` log)
        /\ (logged log -> rest = filter (fun s => s <> q) log))
  /\ (NoDup [a; b; c; d; e; f] ->
      foldl (fun l s => updated s l) [] [a; b; c; d; e; f] = [f; e; d; c; b])
  /\ (logged log -> (length log <= 5)%nat /\ NoDup log)
  /\ (length (updated q log) <= 5)%nat
  /\ (NoDup log -> NoDup (updated q log))
  /\ (mount (initial storage) = Mounted page ->
      (forall saved,
         storage !! RECENT_SEARCHES = Some (JSON_stringify saved) ->
         (length saved <= 5)%nat /\ NoDup saved) ->
      (length (recentSearches (SummaryHandlers.lookups ls page)) <= 5)%nat
      /\ NoDup (recentSearches (SummaryHandlers.lookups ls page))).
Proof.
  split; [|split; [|split; [|split; [|split; [|split]]]]].
  - intros Htext Hpath Hsuccess. erewrite fetchSummary_json by done.
    change (ToBoolean (VJson (JBool true))) with true. project.
    split; [reflexivity|apply lookup_insert_eq].
  - intros Hin. exists (take 4 (filter (fun s => s <> q) log)).
    split; [apply updated_cons|]. split; [|split].
    + intros Hrest.
      eapply elem_of_sublist in Hrest; [|apply sublist_take].
      apply list_elem_of_filter in Hrest. by destruct Hrest.
    + etrans; [apply sublist_take|]. by apply sublist_filter.
    + intros Hlog. apply take_ge.
      pose proof (length_filter_lt (fun s => s <> q) log q Hin) as Hshort.
      destruct (logged_valid log Hlog) as [Hlen _].
      assert (~ q <> q) by tauto. specialize (Hshort ltac:(done)). lia.
  - intros Hdistinct. simpl.
    repeat match goal with
           | H : NoDup (_ :: _) |- _ => apply NoDup_cons in H as [? H]
           end.
    rewrite !not_elem_of_cons in *.
    rewrite (updated_fresh a) by apply not_elem_of_nil. simpl.
    rewrite (updated_fresh b) by distinct. simpl.
    rewrite (updated_fresh c) by distinct. simpl.
    rewrite (updated_fresh d) by distinct. simpl.
    rewrite (updated_fresh e) by distinct. simpl.
    rewrite (updated_fresh f) by distinct. reflexivity.
  - apply logged_valid.
  - apply length_updated.
  - apply NoDup_updated.
  - intros Hmount Hstored. apply lookups_tidy.
    destruct (mount_cases storage page Hmount)
      as [[-> _]|(saved & Hsaved & ->)]; simpl.
    + split; [lia|constructor].
    + by apply Hstored.
Qed.

Lemma recent_log_insertion_witness :
  trim (js "13000020") <> []
  /\ encodeURIComponent (trim (js "13000020")) = Normal (js "13000020")
  /\ getProp Scenario.foundPayload (js "success") = Normal (VJson (JBool true))
  /\ (js "13000020" ∈ [js "13000025"; js "13000020"])
  /\ NoDup [js "a"; js "b"; js "c"; js "d"; js "e"; js "f"]
  /\ logged [js "13000025"; js "13000020"]
  /\ mount (initial ∅) = Mounted Scenario.opened
  /\ (forall saved,
        (∅ : gmap jsstring item) !! RECENT_SEARCHES
        = Some (JSON_stringify saved) ->
        (length saved <= 5)%nat /\ NoDup saved)
  /\ recentSearches
       (snd (fetchSummary Scenario.isoNow
               (Resolved {| status := 200;
                            body := Some Scenario.foundPayload |})
               (js "13000020")
               (setRecentSearches [js "13000025"; js "13000020"]
                  Scenario.opened)))
     = updated (trim (js "13000020")) [js "13000025"; js "13000020"]
  /\ updated (js "13000020") [js "13000025"; js "13000020"]
     = [js "13000020"; js "13000025"]
  /\ foldl (fun l s => updated s l) []
       [js "a"; js "b"; js "c"; js "d"; js "e"; js "f"]
     = [js "f"; js "e"; js "d"; js "c"; js "b"]
  /\ (length [js "13000025"; js "13000020"] <= 5)%nat
  /\ NoDup (recentSearches
              (SummaryHandlers.lookups
                 [{| SummaryHandlers.clock := Scenario.isoNow;
                     SummaryHandlers.settles :=
                       Resolved {| status := 200;
                                   body := Some Scenario.foundPayload |};
                     SummaryHandlers.identifier := js "13000020" |}]
                 Scenario.opened)).
Proof.
  assert (Htext : trim (js "13000020") <> []) by (vm_compute; discriminate).
  assert (Hpath : encodeURIComponent (trim (js "13000020"))
                  = Normal (js "13000020")) by reflexivity.
  assert (Hsuccess : getProp Scenario.foundPayload (js "success")
                     = Normal (VJson (JBool true))) by reflexivity.
  assert (Hin : js "13000020" ∈ [js "13000025"; js "13000020"])
    by (rewrite !elem_of_cons; tauto).
  assert (Hdistinct : NoDup [js "a"; js "b"; js "c"; js "d"; js "e"; js "f"])
    by (apply (bool_decide_unpack _); vm_compute; exact I).
  assert (Hlog : logged [js "13000025"; js "13000020"])
    by exact (logged_save (js "13000025") _
                (logged_save (js "13000020") _ logged_empty)).
  assert (Hmount : mount (initial ∅) = Mounted Scenario.opened)
    by reflexivity.
  assert (Hstored : forall saved,
    (∅ : gmap jsstring item) !! RECENT_SEARCHES
    = Some (JSON_stringify saved) ->
    (length saved <= 5)%nat /\ NoDup saved) by (intros saved Hsaved; done).
  destruct (recent_log_insertion [js "13000025"; js "13000020"]
              (js "13000020") (js "a") (js "b") (js "c") (js "d") (js "e")
              (js "f") Scenario.isoNow 200 Scenario.foundPayload
              (js "13000020") (js "13000020")
              (setRecentSearches [js "13000025"; js "13000020"]
                 Scenario.opened)
              ∅ Scenario.opened
              [{| SummaryHandlers.clock := Scenario.isoNow;
                  SummaryHandlers.settles :=
                    Resolved {| status := 200;
                                body := Some Scenario.foundPayload |};
                  SummaryHandlers.identifier := js "13000020" |}])
    as (Hpage & Hmove & Hsix & Hvalid & _ & _ & Hloaded).
  destruct (Hmove Hin) as (rest & Hupdated & _ & _ & Hrest).
  split; [exact Htext|]. split; [exact Hpath|]. split; [exact Hsuccess|].
  split; [exact Hin|]. split; [exact Hdistinct|]. split; [exact Hlog|].
  split; [exact Hmount|]. split; [exact Hstored|].
  split; [exact (proj1 (Hpage Htext Hpath Hsuccess))|].
  split; [rewrite Hupdated, (Hrest Hlog); reflexivity|].
  split; [exact (Hsix Hdistinct)|].
  split; [exact (proj1 (Hvalid Hlog))|].
  exact (proj2 (Hloaded Hmount Hstored)).
Defined.

(** C7 as it is worded fails on a page loaded over a storage whose log
    holds an entry twice: the mount effect takes the log as it finds it,
    and an insertion removes the inserted identifier only. *)
Lemma stored_duplicates_stay :
  ~ (forall storage (page : State) (ls : list SummaryHandlers.Lookup),
       mount (initial storage) = Mounted page ->
       (length (recentSearches (SummaryHandlers.lookups ls page)) <= 5)%nat
       /\ NoDup (recentSearches (SummaryHandlers.lookups ls page))).
Proof.
  intros Hclaim.
  destruct (Hclaim Scenario.untidyStorage
              (setRecentSearches [js "a"; js "a"; js "b"]
                 (initial Scenario.untidyStorage))
              [{| SummaryHandlers.clock := Scenario.isoNow;
                  SummaryHandlers.settles :=
                    Resolved {| status := 200;
                                body := Some Scenario.foundPayload |};
                  SummaryHandlers.identifier := js "13000020" |}]
              eq_refl)
    as [_ Hnodup].
  assert (Hlog : recentSearches
            (SummaryHandlers.lookups
               [{| SummaryHandlers.clock := Scenario.isoNow;
                   SummaryHandlers.settles :=
                     Resolved {| status := 200;
                                 body := Some Scenario.foundPayload |};
                   SummaryHandlers.identifier := js "13000020" |}]
               (setRecentSearches [js "a"; js "a"; js "b"]
                  (initial Scenario.untidyStorage)))
          = [js "13000020"; js "a"; js "a"; js "b"]) by reflexivity.
  rewrite Hlog in Hnodup.
  apply NoDup_cons in Hnodup as [_ Hnodup].
  apply NoDup_cons in Hnodup as [Hfresh _].
  apply Hfresh. by left.
Qed.

(** *** Lookups *)


Lemma getProp_object data name v :
  getProp data name = Normal (VJson v) ->
  exists fields, data = JObj fields /\ lookupField name fields = VJson v.
Proof. destruct data; try done. intros [= H]. by eexists. Qed.

(** The fields of the cards are read without a throw. *)
Lemma ticketCards_object fields (w : State) :
  exists cards, ticketCards (JObj fields) w = (Normal cards, w).
Proof.
  unfold ticketCards, bind, lift, ret. unfold getProp at 1.
  destruct (lookupField (js "ticket") fields) as [|t]; [by eexists|].
  destruct t as [|[]|n|s|items|fs]; try (by eexists).
  - destruct (ToBoolean (VJson (JNum n))); by eexists.
  - destruct (ToBoolean (VJson (JStr s))); by eexists.
Qed.



(** A lookup that meets a failure below the payload level, whether or
    not a request could be made. *)
Lemma fetchSummary_transport iso (f : fetched) identifier (w : State) :
  trim identifier <> [] ->
  f = Rejected
  \/ (exists code, f = Resolved {| status := code; body := None |})
  \/ (exists code, f = Resolved {| status := code; body := Some JNull |}) ->
  let call := fetchSummary iso f identifier w in
  fst call = Normal tt
  /\ summaryData (snd call) = connectionFailed identifier iso
  /\ isLoading (snd call) = false
  /\ recentSearches (snd call) = recentSearches w
  /\ localStorage (snd call) = localStorage w.
Proof.
  intros Htext Hf call. subst call.
  destruct (encodeURIComponent (trim identifier)) as [path|e] eqn:Hpath.
  - by erewrite fetchSummary_failed.
  - by erewrite fetchSummary_unescapable.
Qed.

(** What the page shows for the record of the [catch] block. *)
Lemma results_connectionFailed identifier iso (w : State) :
  isLoading w = false ->
  summaryData w = connectionFailed identifier iso ->
  fst (results w) = Normal (SummaryNotFound (JStr COULD_NOT_CONNECT)).
Proof.
  intros Hidle Hdata. unfold results. rewrite Hidle, Hdata. reflexivity.
Qed.

(** C6, as the code has it. A lookup whose response body is JSON with
    [success] false stores the body, and the page shows the [message] of
    the body when it is truthy; when it is missing or falsy the page
    shows a default text that ends with the [identifier] property of the
    body as a template literal prints it, the string itself when it is a
    string; when the literal cannot print it, the render throws what the
    conversion throws. A lookup whose [fetch] rejects or whose body is not JSON
    stores the record of a failed connection, whose message is fixed and
    names [localhost:3002]. Both leave the recent searches as they
    were. *)
Theorem failed_lookup_outcomes iso identifier (w : State) :
  trim identifier <> [] ->
  (forall code data path message ident,
     encodeURIComponent (trim identifier) = Normal path ->
     getProp data (js "success") = Normal (VJson (JBool false)) ->
     getProp data (js "message") = Normal message ->
     getProp data (js "identifier") = Normal ident ->
     let call :=
       fetchSummary iso (Resolved {| status := code; body := Some data |})
         identifier w in
     summaryData (snd call) = data
     /\ recentSearches (snd call) = recentSearches w
     /\ localStorage (snd call) = localStorage w
     /\ (forall j,
          message = VJson j -> ToBoolean message = true ->
          fst (results (snd call)) = Normal (SummaryNotFound j))
     /\ (forall text,
          ToBoolean message = false ->
          ToStringValue ident = Normal text ->
          fst (results (snd call))
          = Normal (SummaryNotFound (JStr (NO_TICKET_FOUND ++ text))))
     /\ (forall s,
          ToBoolean message = false ->
          ident = VJson (JStr s) ->
          fst (results (snd call))
          = Normal (SummaryNotFound (JStr (NO_TICKET_FOUND ++ s))))
     /\ (forall e,
          ToBoolean message = false ->
          ToStringValue ident = Throw e ->
          fst (results (snd call)) = Throw e))
  /\ (forall f,
        f = Rejected
        \/ (exists code, f = Resolved {| status := code; body := None |}) ->
        let call := fetchSummary iso f identifier w in
        summaryData (snd call) = connectionFailed identifier iso
        /\ recentSearches (snd call) = recentSearches w
        /\ localStorage (snd call) = localStorage w
        /\ fst (results (snd call))
           = Normal (SummaryNotFound (JStr COULD_NOT_CONNECT))
        /\ includes (js "localhost:3002") COULD_NOT_CONNECT = true).
Proof.
  intros Htext. split.
  - intros code data path message ident Hpath Hsuccess Hmessage Hident call.
    subst call. erewrite fetchSummary_json by done.
    change (ToBoolean (VJson (JBool false))) with false. project.
    destruct (getProp_object _ _ _ Hsuccess) as (fields & -> & _).
    assert (Hdefault : forall text,
      ToBoolean message = false ->
      ToStringValue ident = Normal text ->
      fst (results
             {| searchQuery := searchQuery w;
                summaryData := JObj fields;
                isLoading := false;
                recentSearches := recentSearches w;
                localStorage := localStorage w;
                requests :=
                  requests w
                  ++ [getRequest
                        (API_BASE_URL ++ js "/summarize/" ++ path)] |})
      = Normal (SummaryNotFound (JStr (NO_TICKET_FOUND ++ text)))).
    { intros text Hfalsy Htext'.
      unfold results, defaultMessage, bind, lift, ret. project.
      change (ToBoolean (VJson (JObj fields))) with true. cbv iota.
      rewrite Hsuccess. change (ToBoolean (VJson (JBool false))) with false.
      cbv iota. rewrite Hmessage. cbv iota.
      destruct message as [|j]; [|rewrite Hfalsy];
        by rewrite Hident, Htext'. }
    repeat split.
    + intros j -> Htruthy.
      unfold results, bind, lift, ret. project.
      change (ToBoolean (VJson (JObj fields))) with true. cbv iota.
      rewrite Hsuccess. change (ToBoolean (VJson (JBool false))) with false.
      cbv iota. rewrite Hmessage. cbv iota. by rewrite Htruthy.
    + exact Hdefault.
    + intros s Hfalsy ->. by apply Hdefault.
    + intros e Hfalsy Hthrow.
      unfold results, defaultMessage, bind, lift, ret. project.
      change (ToBoolean (VJson (JObj fields))) with true. cbv iota.
      rewrite Hsuccess. change (ToBoolean (VJson (JBool false))) with false.
      cbv iota. rewrite Hmessage. cbv iota.
      destruct message as [|j]; [|rewrite Hfalsy];
        by rewrite Hident, Hthrow.
  - intros f Hf call.
    destruct (fetchSummary_transport iso f identifier w Htext)
      as (_ & Hdata & Hidle & Hrecent & Hstore); [tauto|].
    repeat split; try done.
    by eapply results_connectionFailed.
Qed.

Lemma failed_lookup_outcomes_witness :
  trim (js "nonexistent") <> []
  /\ fst (results
            (snd (fetchSummary Scenario.isoNow
                    (Resolved {| status := 200;
                                 body := Some Scenario.notFoundPayload |})
                    (js "nonexistent") Scenario.opened)))
     = Normal (SummaryNotFound (JStr (js "No ticket found")))
  /\ fst (results
            (snd (fetchSummary Scenario.isoNow
                    (Resolved {| status := 200;
                                 body := Some Scenario.echoPayload |})
                    (js "nonexistent") Scenario.opened)))
     = Normal (SummaryNotFound
                 (JStr (NO_TICKET_FOUND ++ js "nonexistent")))
  /\ recentSearches
       (snd (fetchSummary Scenario.isoNow Rejected (js "nonexistent")
               Scenario.opened))
     = [].
Proof.
  assert (Htext : trim (js "nonexistent") <> []) by (vm_compute; discriminate).
  destruct (failed_lookup_outcomes Scenario.isoNow (js "nonexistent")
              Scenario.opened Htext) as [Hpayload Htransport].
  split; [exact Htext|]. split; [|split].
  - destruct (Hpayload 200%Z Scenario.notFoundPayload (js "nonexistent")
                (VJson (JStr (js "No ticket found"))) VUndefined
                eq_refl eq_refl eq_refl eq_refl)
      as (_ & _ & _ & Hshown & _).
    exact (Hshown _ eq_refl eq_refl).
  - destruct (Hpayload 200%Z Scenario.echoPayload (js "nonexistent")
                VUndefined (VJson (JStr (js "nonexistent")))
                eq_refl eq_refl eq_refl eq_refl)
      as (_ & _ & _ & _ & _ & Hdefault & _).
    exact (Hdefault _ eq_refl eq_refl).
  - destruct (Htransport Rejected (or_introl eq_refl)) as (_ & Hrecent & _).
    exact Hrecent.
Defined.

(** C6 as it is worded fails on a failure payload without a message and
    without an identifier: the default text does not mention the
    identifier that was searched. *)
Lemma default_message_reads_payload_identifier :
  ~ (forall iso code data identifier path (w : State),
       trim identifier <> [] ->
       encodeURIComponent (trim identifier) = Normal path ->
       getProp data (js "success") = Normal (VJson (JBool false)) ->
       getProp data (js "message") = Normal VUndefined ->
       exists text,
         fst (results
                (snd (fetchSummary iso
                        (Resolved {| status := code; body := Some data |})
                        identifier w)))
         = Normal (SummaryNotFound (JStr text))
         /\ includes (trim identifier) text = true).
Proof.
  intros Hclaim.
  assert (Htext : trim (js "nonexistent") <> []) by (vm_compute; discriminate).
  destruct (Hclaim Scenario.isoNow 200%Z Scenario.barePayload
              (js "nonexistent") (js "nonexistent") Scenario.opened
              Htext eq_refl eq_refl eq_refl) as (text & Hshown & Hnamed).
  vm_compute in Hshown. injection Hshown as <-.
  vm_compute in Hnamed. discriminate Hnamed.
Qed.




(** C10, as the code has it. A lookup never reads the status of the
    response: two responses with the same body end the call alike; a body
    that is JSON other than [null] is stored as the result whatever the
    status, and when its [success] is true the trimmed identifier goes in
    front of the recent searches. *)
Theorem status_is_not_inspected iso identifier (w : State) code code' bd :
  fetchSummary iso (Resolved {| status := code; body := bd |}) identifier w
  = fetchSummary iso (Resolved {| status := code'; body := bd |}) identifier w
  /\ (forall data path,
        trim identifier <> [] ->
        encodeURIComponent (trim identifier) = Normal path ->
        bd = Some data ->
        data <> JNull ->
        let call :=
          fetchSummary iso (Resolved {| status := code; body := bd |})
            identifier w in
        fst call = Normal tt
        /\ summaryData (snd call) = data
        /\ (getProp data (js "success") = Normal (VJson (JBool true)) ->
            head (recentSearches (snd call)) = Some (trim identifier))).
Proof.
  split; [reflexivity|].
  intros data path Htext Hpath -> Hdata call. subst call.
  destruct (getProp data (js "success")) as [success|e] eqn:Hsuccess;
    [|by destruct data].
  erewrite fetchSummary_json by done. project. repeat split.
  intros [= ->]. by change (ToBoolean (VJson (JBool true))) with true.
Qed.

Lemma status_is_not_inspected_witness :
  trim (js "13000020") <> []
  /\ encodeURIComponent (trim (js "13000020")) = Normal (js "13000020")
  /\ Scenario.foundPayload <> JNull
  /\ summaryData
       (snd (fetchSummary Scenario.isoNow
               (Resolved {| status := 500;
                            body := Some Scenario.foundPayload |})
               (js "13000020") Scenario.opened))
     = Scenario.foundPayload
  /\ head (recentSearches
             (snd (fetchSummary Scenario.isoNow
                     (Resolved {| status := 500;
                                  body := Some Scenario.foundPayload |})
                     (js "13000020") Scenario.opened)))
     = Some (trim (js "13000020")).
Proof.
  assert (Htext : trim (js "13000020") <> []) by (vm_compute; discriminate).
  assert (Hdata : Scenario.foundPayload <> JNull) by discriminate.
  destruct (status_is_not_inspected Scenario.isoNow (js "13000020")
              Scenario.opened 500 200 (Some Scenario.foundPayload))
    as [_ Hstored].
  destruct (Hstored Scenario.foundPayload (js "13000020") Htext eq_refl
              eq_refl Hdata) as (_ & Hresult & Hfront).
  split; [exact Htext|]. split; [reflexivity|]. split; [exact Hdata|].
  split; [exact Hresult|exact (Hfront eq_refl)].
Defined.

(** C10 as it is worded fails on a 500 response whose body is [null]:
    the body is JSON, and the result is the record of a failed
    connection. *)
Lemma null_body_is_not_stored :
  ~ (forall iso code data identifier path (w : State),
       trim identifier <> [] ->
       encodeURIComponent (trim identifier) = Normal path ->
       summaryData
         (snd (fetchSummary iso
                 (Resolved {| status := code; body := Some data |})
                 identifier w))
       = data).
Proof.
  intros Hclaim.
  assert (Htext : trim (js "13000020") <> []) by (vm_compute; discriminate).
  pose proof (Hclaim Scenario.isoNow 500%Z JNull (js "13000020")
                (js "13000020") Scenario.opened Htext eq_refl) as Hstored.
  vm_compute in Hstored. discriminate Hstored.
Qed.

End SummaryFacts.

(** ** Blank input, on both pages *)

Module Validation.
Import JS.

(** C8. When the trimmed input is empty, [sendMessage] and
    [fetchSummary] return at once: no request is made and the state, with
    the storage and the requests made so far, is the one before. *)
Theorem blank_input_is_ignored clk clk' (f g : fetched)
  (st : Conversation.State) iso identifier (w : Summary.State) :
  trim (Conversation.inputValue st) = [] ->
  trim identifier = [] ->
  Conversation.sendMessage_start clk st = (st, None)
  /\ Conversation.sendMessage clk clk' f st = (Normal tt, st)
  /\ Summary.fetchSummary iso g identifier w = (Normal tt, w)
  /\ Summary.requests (snd (Summary.fetchSummary iso g identifier w))
     = Summary.requests w.
Proof.
  intros Hinput Hidentifier.
  assert (Hstart : Conversation.sendMessage_start clk st = (st, None)).
  { unfold Conversation.sendMessage_start.
    by rewrite bool_decide_eq_false_2 by tauto. }
  assert (Hlookup : Summary.fetchSummary iso g identifier w = (Normal tt, w)).
  { unfold Summary.fetchSummary. by rewrite bool_decide_eq_false_2 by tauto. }
  split; [exact Hstart|]. split.
  - unfold Conversation.sendMessage. by rewrite Hstart.
  - by rewrite Hlookup.
Qed.

Lemma blank_input_is_ignored_witness :
  trim (Conversation.inputValue
          (Conversation.setInputValue (js "   ")
             (Conversation.state Scenario.greeted))) = []
  /\ trim [9; 32; 10; 160]%N = []
  /\ Conversation.sendMessage Scenario.sendClock Scenario.replyClock Rejected
       (Conversation.setInputValue (js "   ")
          (Conversation.state Scenario.greeted))
     = (Normal tt,
        Conversation.setInputValue (js "   ")
          (Conversation.state Scenario.greeted))
  /\ Summary.fetchSummary Scenario.isoNow Rejected [9; 32; 10; 160]%N
       Scenario.opened
     = (Normal tt, Scenario.opened).
Proof.
  destruct (blank_input_is_ignored Scenario.sendClock Scenario.replyClock
              Rejected Rejected
              (Conversation.setInputValue (js "   ")
                 (Conversation.state Scenario.greeted))
              Scenario.isoNow [9; 32; 10; 160]%N Scenario.opened
              eq_refl eq_refl) as (_ & Hsend & Hlookup & _).
  split; [reflexivity|]. split; [reflexivity|].
  split; [exact Hsend|exact Hlookup].
Defined.

End Validation.

(** ** Properties of the string functions *)

Module JSFacts.
Import JS Text.

Lemma blank_app s t : blank (s ++ t) = blank s && blank t.
Proof. apply forallb_app. Qed.

Lemma blank_reverse s : blank (reverse s) = blank s.
Proof.
  induction s as [|c s IH]; [done|].
  rewrite reverse_cons, blank_app, IH. simpl.
  rewrite andb_true_r. apply andb_comm.
Qed.

(** [trimStart] removes a blank prefix and stops at the first code unit
    that is not white space. *)
Lemma trimStart_split s :
  exists lead,
    s = lead ++ trimStart s /\ blank lead = true
    /\ forall c, head (trimStart s) = Some c -> isWhiteSpace c = false.
Proof.
  induction s as [|c s (lead & Hs & Hlead & Hhead)].
  - by exists [].
  - simpl. destruct (isWhiteSpace c) eqn:Hc.
    + exists (c :: lead). simpl. rewrite Hc, Hlead. split; [by f_equal|done].
    + exists []. repeat split. simpl. by intros ? [= <-].
Qed.

Lemma trimStart_fixed s :
  (forall c, head s = Some c -> isWhiteSpace c = false) -> trimStart s = s.
Proof. destruct s as [|c s]; [done|]. simpl. intros H. by rewrite H. Qed.

Lemma trimStart_blank s : trimStart s = [] <-> blank s = true.
Proof.
  induction s as [|c s IH]; [done|]. simpl.
  destruct (isWhiteSpace c); simpl; [exact IH|]. split; discriminate.
Qed.

(** The same for [trimEnd], at the other end. *)
Lemma trimEnd_split s :
  exists tail,
    s = trimEnd s ++ tail /\ blank tail = true
    /\ forall c, last (trimEnd s) = Some c -> isWhiteSpace c = false.
Proof.
  destruct (trimStart_split (reverse s)) as (lead & Hs & Hlead & Hhead).
  exists (reverse lead). unfold trimEnd. repeat split.
  - rewrite <- reverse_app, <- Hs. by rewrite reverse_involutive.
  - by rewrite blank_reverse.
  - intros c. rewrite last_reverse. apply Hhead.
Qed.

Lemma trimEnd_fixed s :
  (forall c, last s = Some c -> isWhiteSpace c = false) -> trimEnd s = s.
Proof.
  intros H. unfold trimEnd. rewrite trimStart_fixed.
  - apply reverse_involutive.
  - intros c. rewrite head_reverse. apply H.
Qed.

Lemma trimEnd_blank s : trimEnd s = [] <-> blank s = true.
Proof.
  unfold trimEnd. rewrite <- blank_reverse, <- trimStart_blank.
  split; intros H.
  - apply (f_equal reverse) in H. by rewrite reverse_involutive in H.
  - by rewrite H.
Qed.

(** [trim] cuts a blank prefix and a blank suffix, and what is left
    neither starts nor ends with white space. *)
Lemma trim_split s :
  exists lead tail,
    s = lead ++ trim s ++ tail
    /\ blank lead = true /\ blank tail = true
    /\ (forall c, head (trim s) = Some c -> isWhiteSpace c = false)
    /\ (forall c, last (trim s) = Some c -> isWhiteSpace c = false).
Proof.
  destruct (trimStart_split s) as (lead & Hs & Hlead & Hhead).
  destruct (trimEnd_split (trimStart s)) as (tail & Ht & Htail & Hlast).
  exists lead, tail. unfold trim. repeat split; try done.
  - by rewrite <- Ht.
  - intros c Hc. apply Hhead. rewrite Ht.
    destruct (trimEnd (trimStart s)); [done|exact Hc].
Qed.

Lemma trim_idempotent s : trim (trim s) = trim s.
Proof.
  destruct (trim_split s) as (_ & _ & _ & _ & _ & Hhead & Hlast).
  unfold trim at 1. rewrite trimStart_fixed by exact Hhead.
  by apply trimEnd_fixed.
Qed.

Lemma trim_blank s : trim s = [] <-> blank s = true.
Proof.
  unfold trim. rewrite trimEnd_blank. split; intros H.
  - destruct (trimStart_split s) as (lead & Hs & Hlead & Hhead).
    rewrite Hs, blank_app, Hlead, H. done.
  - by rewrite (proj2 (trimStart_blank s) H).
Qed.

(** *** [encodeURIComponent] *)

Local Open Scope N_scope.








(** The only error that printing a value raises is the [TypeError] of
    an object whose own [toString] is not a function. *)
Lemma ToString_throws (j : json) e : ToString j = Throw e -> e = TypeError.
Proof.
  revert e. induction j as [|b|n|s|items IH|fields] using json_items_ind;
    intros e; cbn [ToString].
  - discriminate.
  - destruct b; discriminate.
  - discriminate.
  - discriminate.
  - revert e. induction IH as [|x rest Hx _ IH]; intros e; [discriminate|].
    destruct (match x with JNull => Normal [] | _ => ToString x end)
      eqn:Hpiece.
    + specialize (IH e).
      match type of IH with ?t = _ -> _ => destruct t as [more|e'] end;
        destruct rest; try discriminate; exact IH.
    + intros [= <-]. destruct x; try discriminate; by apply Hx.
  - destruct (lookupField _ _); [discriminate|]. by intros [= <-].
Qed.

Lemma ToStringValue_throws (v : value) e :
  ToStringValue v = Throw e -> e = TypeError.
Proof. destruct v; [discriminate|]. apply ToString_throws. Qed.

End JSFacts.

From Stdlib Require DecimalPos DecimalZ.

(** ** More properties of the conversation page *)

Module ConversationExtra.
Import JS Text Keyboard Conversation ConversationHandlers.
Import JSFacts ConversationFacts.

#[local] Set Warnings "-clear-no-such-hyp".
#[local] Arguments trim : simpl never.
#[local] Arguments decimal : simpl never.
#[local] Arguments getProp : simpl never.
#[local] Arguments js : simpl never.

Lemma nonblank_text s : trim s <> [] <-> blank s = false.
Proof.
  split.
  - intros Htext. destruct (blank s) eqn:Hblank; [|done].
    by apply (proj2 (trim_blank s)) in Hblank.
  - intros Hblank Htext. apply (proj1 (trim_blank s)) in Htext. congruence.
Qed.

(** X1. [sendMessage] returns at its guard, making no request and
    leaving the state as it is, exactly when a request is under way or
    the input holds white space only; and that is exactly when the send
    button is disabled. *)
Theorem guard_matches_button clk (st : State) :
  (snd (sendMessage_start clk st) = None
   <-> isLoading st = true \/ blank (inputValue st) = true)
  /\ (snd (sendMessage_start clk st) = None
      -> fst (sendMessage_start clk st) = st)
  /\ (sendDisabled st = true <-> snd (sendMessage_start clk st) = None).
Proof.
  unfold sendMessage_start, sendDisabled.
  destruct (bool_decide (trim (inputValue st) <> [])) eqn:Htext.
  - apply bool_decide_eq_true in Htext.
    apply (proj1 (nonblank_text _)) in Htext.
    rewrite Htext. destruct (isLoading st); simpl; naive_solver.
  - apply bool_decide_eq_false in Htext.
    assert (Hblank : blank (inputValue st) = true).
    { apply trim_blank.
      destruct (trim (inputValue st)); [done|]. exfalso. by apply Htext. }
    rewrite Hblank. simpl. naive_solver.
Qed.

Lemma guard_matches_button_witness :
  snd (sendMessage_start Scenario.sendClock
         (setInputValue (js "   ") (state Scenario.greeted))) = None
  /\ fst (sendMessage_start Scenario.sendClock
            (setInputValue (js "   ") (state Scenario.greeted)))
     = setInputValue (js "   ") (state Scenario.greeted).
Proof.
  assert (Hnone : snd (sendMessage_start Scenario.sendClock
                         (setInputValue (js "   ") (state Scenario.greeted)))
                  = None) by reflexivity.
  split; [exact Hnone|].
  exact (proj1 (proj2 (guard_matches_button Scenario.sendClock
                         (setInputValue (js "   ")
                            (state Scenario.greeted)))) Hnone).
Defined.

(** X2. A key press makes a request exactly when the key is Enter
    without Shift, no request is under way and the input holds more
    than white space; without a request the state stays as it is, and
    the default action is prevented for Enter without Shift only. *)
Theorem keypress_sends_plain_enter (e : KeyboardEvent) clk (st : State) :
  (is_Some (snd (snd (handleKeyPress e clk st)))
   <-> key e = js "Enter" /\ shiftKey e = false
       /\ isLoading st = false /\ blank (inputValue st) = false)
  /\ (snd (snd (handleKeyPress e clk st)) = None
      -> fst (snd (handleKeyPress e clk st)) = st)
  /\ (fst (handleKeyPress e clk st) = true
      <-> key e = js "Enter" /\ shiftKey e = false).
Proof.
  destruct (guard_matches_button clk st) as (Hnone & Hsame & _).
  unfold handleKeyPress.
  destruct (bool_decide (key e = js "Enter")) eqn:Hkey;
    [apply bool_decide_eq_true in Hkey|apply bool_decide_eq_false in Hkey];
    destruct (shiftKey e); simpl.
  - split; [|split]; [|done|naive_solver].
    split; [by intros [? [=]]|naive_solver].
  - split; [|split]; [|done|naive_solver].
    rewrite <- not_eq_None_Some, Hnone.
    destruct (isLoading st), (blank (inputValue st)); naive_solver.
  - split; [|split]; [|done|naive_solver].
    split; [by intros [? [=]]|naive_solver].
  - split; [|split]; [|done|naive_solver].
    split; [by intros [? [=]]|naive_solver].
Qed.

Lemma keypress_sends_plain_enter_witness :
  (js "Enter" = js "Enter" /\ false = false
   /\ isLoading (state Scenario.typed) = false
   /\ blank (inputValue (state Scenario.typed)) = false)
  /\ is_Some (snd (snd (handleKeyPress
                          {| key := js "Enter"; shiftKey := false |}
                          Scenario.sendClock (state Scenario.typed)))).
Proof.
  assert (Hplain : js "Enter" = js "Enter" /\ false = false
                   /\ isLoading (state Scenario.typed) = false
                   /\ blank (inputValue (state Scenario.typed)) = false)
    by (repeat split; reflexivity).
  split; [exact Hplain|].
  exact (proj2 (proj1 (keypress_sends_plain_enter
                         {| key := js "Enter"; shiftKey := false |}
                         Scenario.sendClock (state Scenario.typed)))
           Hplain).
Defined.

(** X3. In every page of an execution the busy flag is set exactly when
    a request is under way; there is at most one such request, as many
    pending turns as requests, and while the flag is set the input is
    empty and the pending turn is the last of the transcript. *)
Theorem busy_while_in_flight (p : Page) :
  reachable p ->
  (isLoading (state p) = true <-> inflight p <> [])
  /\ (length (inflight p) <= 1)%nat
  /\ pendingCount (messages (state p)) = length (inflight p)
  /\ (isLoading (state p) = true ->
      inputValue (state p) = []
      /\ exists prev m,
           messages (state p) = prev ++ [m] /\ pending m = true
           /\ settled (messages (state p)) = prev).
Proof.
  intros [->|Hrun]; [simpl; repeat split; try done; lia|].
  destruct (running_shape p Hrun)
    as [(Hidle & Hnone & Hcount)
       |(Hbusy & Hone & Hinput & prev & m & Hm & Hprev & Hpending)].
  - rewrite Hidle, Hnone, Hcount. simpl. repeat split; try done; lia.
  - rewrite Hbusy, Hone. repeat split; try done; try lia.
    + intros _ Hnil. by rewrite Hnil in Hone.
    + rewrite Hm, pendingCount_app, Hprev. unfold pendingCount. simpl.
      by rewrite Hpending.
    + exists prev, m. repeat split; try done.
      rewrite Hm. unfold settled. rewrite List.filter_app. simpl.
      rewrite Hpending. simpl. rewrite app_nil_r.
      clear -Hprev. induction prev as [|x prev IH]; [done|].
      unfold pendingCount in *. simpl in *.
      destruct (pending x); [done|]. simpl. f_equal. by apply IH.
Qed.

Lemma busy_while_in_flight_witness :
  reachable Scenario.asked
  /\ isLoading (state Scenario.asked) = true
  /\ pendingCount (messages (state Scenario.asked))
     = length (inflight Scenario.asked).
Proof.
  split; [exact asked_reachable|]. split; [reflexivity|].
  exact (proj1 (proj2 (proj2
           (busy_while_in_flight Scenario.asked asked_reachable)))).
Defined.

(** X4. A request under way in an execution is a POST to the chat
    endpoint that carries the session key and, as its message, the text
    of the user turn standing just before the pending turn; that text is
    not empty and has no white space at either end. *)
Theorem request_carries_last_user_turn (p : Page) (r : Request) :
  reachable p -> r ∈ inflight p ->
  url r = API_BASE_URL ++ js "/chat"
  /\ method r = js "POST"
  /\ exists text prev u m,
       payload r = Some (JObj [(js "message", JStr text);
                               (js "sessionId", JStr SESSION_ID)])
       /\ text <> [] /\ trim text = text
       /\ messages (state p) = prev ++ [u; m]
       /\ Message.sender u = user /\ Message.content u = JStr text
       /\ pending m = true.
Proof.
  intros [->|Hrun]; [by intros ?%elem_of_nil|].
  revert r. induction Hrun as [now|p e p' Hrun IH Hstep].
  { by intros r ?%elem_of_nil. }
  intros r Hr. destruct e as [v|clk|n clk f]; simpl in Hstep.
  - destruct (isLoading (state p)); [done|]. injection Hstep as <-.
    exact (IH r Hr).
  - unfold sendMessage_start in Hstep.
    destruct (bool_decide (trim (inputValue (state p)) <> [])) eqn:Htext;
      simpl in Hstep.
    2: { injection Hstep as <-. simpl in Hr. rewrite app_nil_r in Hr.
         destruct p. exact (IH r Hr). }
    apply bool_decide_eq_true in Htext.
    destruct (isLoading (state p)) eqn:Hidle; injection Hstep as <-.
    { simpl in Hr. rewrite app_nil_r in Hr. destruct p. exact (IH r Hr). }
    destruct (running_shape p Hrun) as [(_ & Hnone & _)|(Hbusy & _)];
      [|congruence].
    simpl in Hr. rewrite Hnone in Hr. apply list_elem_of_singleton in Hr as ->.
    repeat split.
    exists (trim (inputValue (state p))), (messages (state p)),
      (userMessage clk (state p)), (loadingMessage clk).
    repeat split; try done. apply trim_idempotent.
  - destruct (inflight p !! n) as [r0|] eqn:Hn; [|done].
    injection Hstep as <-. simpl in Hr.
    destruct (running_shape p Hrun) as [(_ & Hnone & _)|(_ & Hone & _)].
    { by rewrite Hnone in Hn. }
    destruct (inflight p) as [|r1 [|r2 rest]]; try done.
    destruct n as [|n]; [|by destruct n]. by apply elem_of_nil in Hr.
Qed.

Lemma request_carries_last_user_turn_witness :
  reachable Scenario.asked
  /\ chatRequest Scenario.sendClock (state Scenario.typed)
     ∈ inflight Scenario.asked
  /\ url (chatRequest Scenario.sendClock (state Scenario.typed))
     = API_BASE_URL ++ js "/chat".
Proof.
  assert (Hin : chatRequest Scenario.sendClock (state Scenario.typed)
                ∈ inflight Scenario.asked) by apply list_elem_of_here.
  split; [exact asked_reachable|]. split; [exact Hin|].
  exact (proj1 (request_carries_last_user_turn Scenario.asked _
                  asked_reachable Hin)).
Defined.

Lemma settled_quiet l : pendingCount l = 0%nat -> settled l = l.
Proof.
  unfold pendingCount, settled. induction l as [|x l IH]; [done|]. simpl.
  destruct (pending x); [done|]. simpl. intros H. f_equal. by apply IH.
Qed.

Lemma settled_app l k : settled (l ++ k) = settled l ++ settled k.
Proof. apply List.filter_app. Qed.

(** One event keeps the settled turns and may add to them. *)
Lemma step_keeps_settled p e p' :
  running p -> step e p = Some p' ->
  settled (messages (state p)) `prefix_of` settled (messages (state p')).
Proof.
  intros Hrun Hstep. destruct e as [v|clk|n clk f]; simpl in Hstep.
  - destruct (isLoading (state p)); [done|]. by injection Hstep as <-.
  - unfold sendMessage_start in Hstep.
    destruct (negb _ || isLoading (state p)); injection Hstep as <-; [done|].
    simpl. rewrite settled_app. by apply prefix_app_r.
  - destruct (inflight p !! n) as [r0|] eqn:Hn; [|done].
    injection Hstep as <-.
    destruct (running_shape p Hrun)
      as [(_ & Hnone & _)|(_ & _ & _ & prev & m & Hm & Hprev & Hpending)].
    { by rewrite Hnone in Hn. }
    destruct (sendMessage_settle_run clk f (state p)) as (reply & -> & _).
    simpl. rewrite Hm, replaceLast_snoc, !settled_app. simpl.
    unfold settled at 2. simpl. rewrite Hpending. simpl.
    rewrite app_nil_r. by apply prefix_app_r.
Qed.

(** X5. In an execution a turn that is no longer pending is never
    changed, moved or removed: whatever events follow, the settled turns
    of a page open the settled turns, and the transcript, of every later
    page. *)
Theorem settled_turns_stay (es : list event) (p p' : Page) :
  running p -> run es p = Some p' ->
  settled (messages (state p)) `prefix_of` settled (messages (state p'))
  /\ settled (messages (state p)) `prefix_of` messages (state p').
Proof.
  intros Hrun Hes.
  assert (Hsettled : settled (messages (state p))
                     `prefix_of` settled (messages (state p'))).
  { revert p' Hes. induction es as [|e es IH] using rev_ind; intros p' Hes.
    - by injection Hes as <-.
    - rewrite run_snoc in Hes. destruct (run es p) as [q|] eqn:Hq; [|done].
      etrans; [by apply IH|].
      eapply step_keeps_settled; [by eapply run_running|exact Hes]. }
  split; [exact Hsettled|]. etrans; [exact Hsettled|].
  destruct (running_shape p' (run_running es p p' Hrun Hes))
    as [(_ & _ & Hcount)|(_ & _ & _ & prev & m & Hm & Hprev & Hpending)].
  - by rewrite settled_quiet.
  - rewrite Hm, settled_app, (settled_quiet prev Hprev).
    unfold settled. simpl. rewrite Hpending. simpl. rewrite app_nil_r.
    by exists [m].
Qed.

Lemma settled_turns_stay_witness :
  running Scenario.greeted
  /\ run [InputChange (js "hello"); Send Scenario.sendClock] Scenario.greeted
     = Some Scenario.asked
  /\ settled (messages (state Scenario.greeted))
     `prefix_of` messages (state Scenario.asked).
Proof.
  assert (Hrun : running Scenario.greeted) by apply running_mount.
  split; [exact Hrun|]. split; [reflexivity|].
  exact (proj2 (settled_turns_stay
                  [InputChange (js "hello"); Send Scenario.sendClock]
                  Scenario.greeted Scenario.asked Hrun eq_refl)).
Defined.

Lemma exchanges_last n : exists l, exchanges n = l ++ [ai].
Proof.
  destruct n as [|n]; [by exists []|].
  exists (exchanges n ++ [user]). simpl. by rewrite <- app_assoc.
Qed.

Lemma length_exchanges n : length (exchanges n) = (2 * n + 1)%nat.
Proof.
  induction n as [|n IH]; [done|]. simpl. rewrite length_app, IH. simpl. lia.
Qed.

Lemma run_none es : foldl (fun acc e => acc ≫= step e) None es = None.
Proof. by induction es. Qed.

Lemma run_cons e es p : run (e :: es) p = step e p ≫= run es.
Proof.
  unfold run. simpl. destruct (step e p) as [p'|]; [done|apply run_none].
Qed.

(** Every page of an execution is the page after a list of events. *)
Lemma running_run p :
  running p ->
  exists now es, run es {| state := mount now initial; inflight := [] |} = Some p.
Proof.
  induction 1 as [now|p e p' _ (now & es & Hes) Hstep].
  - by exists now, [].
  - exists now, (es ++ [e]). by rewrite run_snoc, Hes.
Qed.

(** One event keeps the welcome turn first and adds one exchange when it
    is an accepted submit, none otherwise. *)
Lemma step_senders e p p' n now rest :
  running p ->
  messages (state p) = welcomeMessage now :: rest ->
  map Message.sender (messages (state p)) = exchanges n ->
  step e p = Some p' ->
  exists rest',
    messages (state p') = welcomeMessage now :: rest'
    /\ map Message.sender (messages (state p'))
       = exchanges (n + (if accepts e p then 1 else 0)).
Proof.
  intros Hrun Hhead Hsenders Hstep.
  destruct e as [v|clk|k clk f]; simpl in Hstep; unfold accepts.
  - destruct (isLoading (state p)); [done|]. injection Hstep as <-.
    exists rest. by rewrite Nat.add_0_r.
  - unfold sendMessage_start in *.
    destruct (negb _ || isLoading (state p)); injection Hstep as <-; simpl.
    + exists rest. by rewrite Nat.add_0_r.
    + exists (rest ++ [userMessage clk (state p); loadingMessage clk]).
      rewrite Hhead. split; [done|].
      rewrite Nat.add_1_r, <- Hhead, map_app, Hsenders. done.
  - destruct (inflight p !! k) as [r0|] eqn:Hk; [|done].
    injection Hstep as <-. rewrite Nat.add_0_r.
    destruct (running_shape p Hrun)
      as [(_ & Hnone & _)|(_ & _ & _ & prev & m & Hm & _ & Hpending)].
    { by rewrite Hnone in Hk. }
    destruct (sendMessage_settle_run clk f (state p))
      as (reply & -> & Hreply & _).
    simpl. rewrite Hm, replaceLast_snoc.
    assert (Hsame : map Message.sender (prev ++ [reply]) = exchanges n).
    { rewrite <- Hsenders, Hm, !map_app. simpl. f_equal. f_equal.
      destruct (exchanges_last n) as [l Hl].
      rewrite Hm, map_app, Hl in Hsenders. simpl in Hsenders.
      apply app_inj_tail in Hsenders as [_ Hai]. congruence. }
    destruct prev as [|w prev].
    { rewrite Hhead in Hm. injection Hm as <- _. done. }
    rewrite Hhead in Hm. injection Hm as <- _.
    by exists (prev ++ [reply]).
Qed.

Lemma run_senders es p q n now rest :
  running p ->
  messages (state p) = welcomeMessage now :: rest ->
  map Message.sender (messages (state p)) = exchanges n ->
  run es p = Some q ->
  exists rest',
    messages (state q) = welcomeMessage now :: rest'
    /\ map Message.sender (messages (state q))
       = exchanges (n + accepted es p).
Proof.
  revert p n rest.
  induction es as [|e es IH]; intros p n rest Hrun Hhead Hsenders Hq.
  - injection Hq as <-. exists rest. by rewrite Nat.add_0_r.
  - rewrite run_cons in Hq. simpl.
    destruct (step e p) as [p'|] eqn:Hstep; [|done]. simpl in Hq.
    destruct (step_senders e p p' n now rest Hrun Hhead Hsenders Hstep)
      as (rest' & Hhead' & Hsenders').
    destruct (IH p' _ rest' (running_step _ _ _ Hrun Hstep) Hhead' Hsenders'
                Hq) as (rest'' & Hhead'' & Hsenders'').
    exists rest''. by rewrite Nat.add_assoc.
Qed.

(** X6. Whatever events the conversation page has handled since its
    mount, its transcript starts with the welcome turn of the mount,
    which is followed by one exchange, a user turn then an assistant
    turn, for each submit that got past the guard of [sendMessage], and
    by nothing else: with [n] such submits it holds [2 * n + 1] turns.
    Every page of an execution is reached by such a list of events. *)
Theorem transcript_alternates now (es : list event) (p : Page) :
  run es {| state := mount now initial; inflight := [] |} = Some p ->
  running p
  /\ exists rest,
       messages (state p) = welcomeMessage now :: rest
       /\ map Message.sender (messages (state p))
          = exchanges
              (accepted es {| state := mount now initial; inflight := [] |})
       /\ length (messages (state p))
          = (2 * accepted es {| state := mount now initial; inflight := [] |}
             + 1)%nat.
Proof.
  intros Hes.
  assert (Hrun : running p).
  { eapply run_running; [apply running_mount|exact Hes]. }
  split; [exact Hrun|].
  destruct (run_senders es _ p 0%nat now [] (running_mount now) eq_refl
              eq_refl Hes) as (rest & Hhead & Hsenders).
  simpl in Hsenders. exists rest. repeat split; [exact Hhead|exact Hsenders|].
  by rewrite <- (length_map Message.sender), Hsenders, length_exchanges.
Qed.

Lemma transcript_alternates_witness :
  run [InputChange (js "hello"); Send Scenario.sendClock;
       Send Scenario.sendClock;
       Settle 0 Scenario.replyClock (Resolved Scenario.ticketsReply);
       Send Scenario.sendClock]
    Scenario.greeted
  = Some Scenario.answered
  /\ map Message.sender (messages (state Scenario.answered)) = [ai; user; ai]
  /\ length (messages (state Scenario.answered)) = 3%nat.
Proof.
  assert (Hes : run [InputChange (js "hello"); Send Scenario.sendClock;
                     Send Scenario.sendClock;
                     Settle 0 Scenario.replyClock
                       (Resolved Scenario.ticketsReply);
                     Send Scenario.sendClock]
                  Scenario.greeted
                = Some Scenario.answered) by reflexivity.
  split; [exact Hes|].
  destruct (transcript_alternates _ _ _ Hes)
    as (_ & rest & _ & Hsenders & Hlength).
  split; [exact Hsenders|exact Hlength].
Defined.

Lemma or_else_truthy v dflt :
  ToBoolean (VJson dflt) = true -> ToBoolean (VJson (or_else v dflt)) = true.
Proof.
  intros Hdflt. unfold or_else. destruct v as [|j]; [done|].
  by destruct (ToBoolean (VJson j)) eqn:Hj.
Qed.

(** X7. However the request settles, the turn that takes the place of
    the last one is an assistant turn that is not pending and whose
    content is never empty: it is the truthy [response] of a 2xx JSON
    reply, or one of the two fixed texts; the busy flag is cleared and the
    input is left as it is. *)
Theorem settled_reply_is_never_empty clk (f : fetched) (st : State) :
  exists reply,
    sendMessage_settle clk f st
    = (Normal tt,
       {| messages := slice_0_m1 (messages st) ++ [reply];
          inputValue := inputValue st;
          isLoading := false |})
    /\ ToBoolean (VJson (Message.content reply)) = true
    /\ Message.sender reply = ai
    /\ pending reply = false
    /\ (Message.content reply = JStr CONNECTION_ERROR
        \/ Message.content reply = JStr COULD_NOT_PROCESS
        \/ exists code data,
             f = Resolved {| status := code; body := Some data |}
             /\ ok {| status := code; body := Some data |} = true
             /\ getProp data (js "response")
                = Normal (VJson (Message.content reply))).
Proof.
  assert (Herror : exists reply,
    (Normal tt,
     setIsLoading false (setMessages (replaceLast (errorMessage clk)) st))
    = (Normal tt,
       {| messages := slice_0_m1 (messages st) ++ [reply];
          inputValue := inputValue st;
          isLoading := false |})
    /\ ToBoolean (VJson (Message.content reply)) = true
    /\ Message.sender reply = ai
    /\ pending reply = false
    /\ (Message.content reply = JStr CONNECTION_ERROR
        \/ Message.content reply = JStr COULD_NOT_PROCESS
        \/ exists code data,
             f = Resolved {| status := code; body := Some data |}
             /\ ok {| status := code; body := Some data |} = true
             /\ getProp data (js "response")
                = Normal (VJson (Message.content reply)))).
  { exists (errorMessage clk). repeat split. by left. }
  unfold sendMessage_settle, try_finally, try_catch, sendMessage_try,
    sendMessage_catch, bind, await, response_json, lift, update, throw, ret.
  destruct f as [|[code bd]]; simpl; [exact Herror|].
  destruct (ok {| status := code; body := bd |}) eqn:Hok; simpl;
    [|exact Herror].
  destruct bd as [data|]; simpl; [|exact Herror].
  destruct (getProp data (js "response")) as [field|e] eqn:Hfield; simpl;
    [|exact Herror].
  exists (aiMessage clk (or_else field (JStr COULD_NOT_PROCESS))).
  repeat split.
  - by apply or_else_truthy.
  - simpl. unfold or_else. destruct field as [|j]; [by right; left|].
    destruct (ToBoolean (VJson j)); [|by right; left].
    right. right. by exists code, data.
Qed.

Lemma decimal_inj a b : decimal a = decimal b -> a = b.
Proof.
  assert (Hjs : forall s t, js s = js t -> s = t).
  { induction s as [|c s IH]; intros [|d t]; try done. simpl.
    intros [= Hc Hs]. f_equal; [|by apply IH].
    by rewrite <- (ascii_N_embedding c), <- (ascii_N_embedding d), Hc. }
  assert (Hint : forall z,
    NilZero.int_of_string (NilZero.string_of_int (Z.to_int z))
    = Some (Z.to_int z)).
  { intros z. apply NilZero.isi; destruct z as [|q|q]; try done; simpl;
      intros [= H]; by apply (DecimalPos.Unsigned.to_uint_nonnil q). }
  unfold decimal. intros H%Hjs.
  apply (f_equal NilZero.int_of_string) in H. rewrite !Hint in H.
  injection H as H. by apply DecimalZ.to_int_inj.
Qed.

(** X8. When the clock does not run backwards during a submit, the user
    turn, the pending turn and the turn that replaces it have three
    different ids. *)
Theorem ids_differ_within_submit clk clk' (st : State) (text : json) :
  (now_user_id clk <= now_loading_id clk)%Z ->
  (now_loading_id clk <= now_reply_id clk')%Z ->
  Message.id (userMessage clk st) <> Message.id (loadingMessage clk)
  /\ Message.id (userMessage clk st) <> Message.id (aiMessage clk' text)
  /\ Message.id (loadingMessage clk) <> Message.id (aiMessage clk' text)
  /\ Message.id (userMessage clk st) <> Message.id (errorMessage clk').
Proof.
  intros Hfirst Hsecond. simpl.
  repeat split; intros H%decimal_inj; lia.
Qed.

Lemma ids_differ_within_submit_witness :
  (now_user_id Scenario.sendClock <= now_loading_id Scenario.sendClock)%Z
  /\ (now_loading_id Scenario.sendClock
      <= now_reply_id Scenario.replyClock)%Z
  /\ Message.id (userMessage Scenario.sendClock (state Scenario.typed))
     <> Message.id (loadingMessage Scenario.sendClock).
Proof.
  assert (Hfirst : (now_user_id Scenario.sendClock
                    <= now_loading_id Scenario.sendClock)%Z)
    by (vm_compute; discriminate).
  assert (Hsecond : (now_loading_id Scenario.sendClock
                     <= now_reply_id Scenario.replyClock)%Z)
    by (vm_compute; discriminate).
  split; [exact Hfirst|]. split; [exact Hsecond|].
  exact (proj1 (ids_differ_within_submit Scenario.sendClock
                  Scenario.replyClock (state Scenario.typed) JNull
                  Hfirst Hsecond)).
Defined.

End ConversationExtra.

(** ** More properties of the summary page *)

Module SummaryExtra.
Import JS Text Keyboard Summary SummaryHandlers.
Import JSFacts SummaryFacts.

#[local] Set Warnings "-clear-no-such-hyp".
#[local] Arguments trim : simpl never.
#[local] Arguments getProp : simpl never.
#[local] Arguments js : simpl never.
#[local] Arguments encodeURIComponent : simpl never.
#[local] Arguments updated : simpl never.
#[local] Arguments connectionFailed : simpl never.
#[local] Arguments ToBoolean : simpl never.

(** The three ways a lookup with an identifier ends. *)
Lemma fetchSummary_cases iso (f : fetched) identifier (w : State) :
  trim identifier <> [] ->
  (exists e,
     encodeURIComponent (trim identifier) = Throw e
     /\ fetchSummary iso f identifier w
        = (Normal tt,
           {| searchQuery := searchQuery w;
              summaryData := connectionFailed identifier iso;
              isLoading := false;
              recentSearches := recentSearches w;
              localStorage := localStorage w;
              requests := requests w |}))
  \/ (exists path,
        encodeURIComponent (trim identifier) = Normal path
        /\ fetchSummary iso f identifier w
           = (Normal tt,
              {| searchQuery := searchQuery w;
                 summaryData := connectionFailed identifier iso;
                 isLoading := false;
                 recentSearches := recentSearches w;
                 localStorage := localStorage w;
                 requests :=
                   requests w
                   ++ [getRequest
                         (API_BASE_URL ++ js "/summarize/" ++ path)] |}))
  \/ (exists path code data success,
        encodeURIComponent (trim identifier) = Normal path
        /\ f = Resolved {| status := code; body := Some data |}
        /\ getProp data (js "success") = Normal success
        /\ fetchSummary iso f identifier w
           = (Normal tt,
              {| searchQuery := searchQuery w;
                 summaryData := data;
                 isLoading := false;
                 recentSearches :=
                   if ToBoolean success
                   then updated (trim identifier) (recentSearches w)
                   else recentSearches w;
                 localStorage :=
                   if ToBoolean success
                   then <[RECENT_SEARCHES :=
                            JSON_stringify
                              (updated (trim identifier) (recentSearches w))]>
                          (localStorage w)
                   else localStorage w;
                 requests :=
                   requests w
                   ++ [getRequest
                         (API_BASE_URL ++ js "/summarize/" ++ path)] |})).
Proof.
  intros Htext.
  destruct (encodeURIComponent (trim identifier)) as [path|e] eqn:Hpath.
  2: { left. exists e. split; [done|]. by eapply fetchSummary_unescapable. }
  right. destruct f as [|[code [data|]]].
  - left. exists path. split; [done|]. apply fetchSummary_failed; auto.
  - destruct (getProp data (js "success")) as [success|e] eqn:Hsuccess.
    + right. exists path, code, data, success. repeat split; try done.
      by apply fetchSummary_json.
    + left. exists path. split; [done|]. destruct data; try done.
      apply fetchSummary_failed; eauto.
  - left. exists path. split; [done|]. apply fetchSummary_failed; eauto.
Qed.

Lemma fetchSummary_blank iso (f : fetched) identifier (w : State) :
  trim identifier = [] -> fetchSummary iso f identifier w = (Normal tt, w).
Proof.
  intros Hblank. unfold fetchSummary.
  by rewrite bool_decide_eq_false_2 by tauto.
Qed.

Lemma text_or_not (s : jsstring) : trim s = [] \/ trim s <> [].
Proof. destruct (trim s); [by left|by right]. Qed.

(** X9. A lookup never throws, whatever its argument and whatever its
    request settles with; it leaves the search box as it is, touches no
    other key of the storage than that of the recent searches, and, once
    past its guard, ends with the busy flag cleared. *)
Theorem lookup_always_completes iso (f : fetched) identifier (w : State) :
  fst (fetchSummary iso f identifier w) = Normal tt
  /\ searchQuery (snd (fetchSummary iso f identifier w)) = searchQuery w
  /\ (forall k, k <> RECENT_SEARCHES ->
      localStorage (snd (fetchSummary iso f identifier w)) !! k
      = localStorage w !! k)
  /\ (trim identifier <> [] ->
      isLoading (snd (fetchSummary iso f identifier w)) = false).
Proof.
  destruct (text_or_not identifier) as [Hblank|Htext].
  { by rewrite fetchSummary_blank. }
  destruct (fetchSummary_cases iso f identifier w Htext)
    as [(e & _ & ->)|[(path & _ & ->)
       |(path & code & data & success & _ & _ & _ & ->)]];
    repeat split; try done.
  intros k Hk. project. destruct (ToBoolean success); [|done].
  by rewrite lookup_insert_ne.
Qed.

Lemma lookup_always_completes_witness :
  trim [55357]%N <> []
  /\ fst (fetchSummary Scenario.isoNow Rejected [55357]%N Scenario.opened)
     = Normal tt
  /\ isLoading
       (snd (fetchSummary Scenario.isoNow Rejected [55357]%N
               Scenario.opened))
     = false.
Proof.
  assert (Htext : trim [55357]%N <> []) by (vm_compute; discriminate).
  destruct (lookup_always_completes Scenario.isoNow Rejected [55357]%N
              Scenario.opened) as (Hdone & _ & _ & Hidle).
  split; [exact Htext|]. split; [exact Hdone|exact (Hidle Htext)].
Defined.






(** X12. A lookup changes the recent searches, in the component or in
    the storage, only when its response was read as JSON whose [success]
    is truthy: a failed, refused or unanswered lookup is never logged. *)
Theorem only_success_is_logged iso (f : fetched) identifier (w : State) :
  recentSearches (snd (fetchSummary iso f identifier w)) <> recentSearches w
  \/ localStorage (snd (fetchSummary iso f identifier w)) <> localStorage w ->
  exists code data success,
    f = Resolved {| status := code; body := Some data |}
    /\ getProp data (js "success") = Normal success
    /\ ToBoolean success = true
    /\ trim identifier <> []
    /\ recentSearches (snd (fetchSummary iso f identifier w))
       = updated (trim identifier) (recentSearches w).
Proof.
  destruct (text_or_not identifier) as [Hblank|Htext].
  { rewrite fetchSummary_blank by done. simpl. tauto. }
  destruct (fetchSummary_cases iso f identifier w Htext)
    as [(e & _ & ->)|[(path & _ & ->)
       |(path & code & data & success & _ & -> & Hsuccess & ->)]];
    project; try tauto.
  destruct (ToBoolean success) eqn:Htruthy; [|tauto].
  intros _. by exists code, data, success.
Qed.

Lemma only_success_is_logged_witness :
  recentSearches
    (snd (fetchSummary Scenario.isoNow
            (Resolved {| status := 200; body := Some Scenario.foundPayload |})
            (js "13000020") Scenario.opened))
  <> recentSearches Scenario.opened
  /\ exists code data success,
       Resolved {| status := 200; body := Some Scenario.foundPayload |}
       = Resolved {| status := code; body := Some data |}
       /\ getProp data (js "success") = Normal success
       /\ ToBoolean success = true
       /\ trim (js "13000020") <> []
       /\ recentSearches
            (snd (fetchSummary Scenario.isoNow
                    (Resolved {| status := 200;
                                 body := Some Scenario.foundPayload |})
                    (js "13000020") Scenario.opened))
          = updated (trim (js "13000020")) (recentSearches Scenario.opened).
Proof.
  assert (Hchanged : recentSearches
    (snd (fetchSummary Scenario.isoNow
            (Resolved {| status := 200; body := Some Scenario.foundPayload |})
            (js "13000020") Scenario.opened))
    <> recentSearches Scenario.opened) by (vm_compute; discriminate).
  split; [exact Hchanged|].
  exact (only_success_is_logged Scenario.isoNow _ (js "13000020")
           Scenario.opened (or_introl Hchanged)).
Defined.






(** X14. Inserting an identifier that a log of at most five entries
    does not hold keeps every entry while there is room, and, when the
    log is full, drops its last entry, the oldest, and no other. *)
Theorem full_log_drops_oldest (log : list jsstring) (q : jsstring) :
  (length log <= 5)%nat -> q ∉ log ->
  ((length log < 5)%nat -> updated q log = q :: log)
  /\ ((length log = 5)%nat ->
      exists front oldest,
        log = front ++ [oldest] /\ updated q log = q :: front).
Proof.
  intros Hlen Hfresh. rewrite (updated_fresh q log Hfresh).
  change (take 5 (q :: log)) with (q :: take 4 log). split.
  - intros Hroom. rewrite take_ge by lia. reflexivity.
  - intros Hfull. destruct log as [|x log _] using rev_ind; [done|].
    exists log, x. split; [done|]. rewrite length_app in Hfull. simpl in Hfull.
    rewrite take_app_length' by lia. reflexivity.
Qed.

Lemma full_log_drops_oldest_witness :
  (length [js "5"; js "4"; js "3"; js "2"; js "1"] <= 5)%nat
  /\ (js "6" ∉ [js "5"; js "4"; js "3"; js "2"; js "1"])
  /\ exists front oldest,
       [js "5"; js "4"; js "3"; js "2"; js "1"] = front ++ [oldest]
       /\ updated (js "6") [js "5"; js "4"; js "3"; js "2"; js "1"]
          = js "6" :: front.
Proof.
  assert (Hlen : (length [js "5"; js "4"; js "3"; js "2"; js "1"] <= 5)%nat)
    by (simpl; lia).
  assert (Hfresh : js "6" ∉ [js "5"; js "4"; js "3"; js "2"; js "1"])
    by (apply (bool_decide_unpack _); vm_compute; exact I).
  split; [exact Hlen|]. split; [exact Hfresh|].
  exact (proj2 (full_log_drops_oldest _ _ Hlen Hfresh) eq_refl).
Defined.

Lemma filter_kept (q : jsstring) (l : list jsstring) :
  Forall (fun s => s <> q) l -> filter (fun s => s <> q) l = l.
Proof.
  induction 1 as [|x l Hx _ IH]; [done|].
  by rewrite filter_cons_True, IH.
Qed.

(** X15. Inserting the same identifier twice in a row gives the log of
    the first insertion; and after two insertions of different
    identifiers the later one is first and the earlier one second. *)
Theorem insertion_order (log : list jsstring) (p q : jsstring) :
  updated q (updated q log) = updated q log
  /\ (p <> q -> exists rest, updated q (updated p log) = q :: p :: rest).
Proof.
  split.
  - rewrite (updated_cons q (updated q log)), (updated_cons q log).
    rewrite filter_cons_False by tauto.
    rewrite filter_kept, take_idemp; [done|].
    apply Forall_take, Forall_forall. intros s Hs.
    by apply list_elem_of_filter in Hs as [Hne _].
  - intros Hne.
    rewrite (updated_cons q (updated p log)), (updated_cons p log).
    rewrite filter_cons_True by done. by eexists.
Qed.

Lemma insertion_order_witness :
  js "13000020" <> js "13000025"
  /\ exists rest,
       updated (js "13000025") (updated (js "13000020") [])
       = js "13000025" :: js "13000020" :: rest.
Proof.
  assert (Hne : js "13000020" <> js "13000025") by discriminate.
  split; [exact Hne|].
  exact (proj2 (insertion_order [] (js "13000020") (js "13000025")) Hne).
Defined.

Lemma trimmed_updated (q : jsstring) (log : list jsstring) :
  trimmed q -> Forall trimmed log -> Forall trimmed (updated q log).
Proof.
  intros Hq Hlog. unfold updated. apply Forall_take. constructor; [done|].
  apply Forall_forall. intros s Hs.
  apply list_elem_of_filter in Hs as [_ Hs].
  by eapply Forall_forall in Hlog.
Qed.

Lemma trimmed_fetchSummary iso (f : fetched) identifier (w : State) :
  Forall trimmed (recentSearches w) ->
  Forall trimmed (recentSearches (snd (fetchSummary iso f identifier w))).
Proof.
  intros Hlog.
  destruct (text_or_not identifier) as [Hblank|Htext].
  { by rewrite fetchSummary_blank. }
  destruct (fetchSummary_cases iso f identifier w Htext)
    as [(e & _ & ->)|[(path & _ & ->)
       |(path & code & data & success & _ & _ & _ & ->)]];
    project; try done.
  destruct (ToBoolean success); [|done].
  apply trimmed_updated; [|done]. split; [apply trim_idempotent|done].
Qed.

(** X16. When the stored recent searches that the mount effect has
    loaded are trimmed and not empty, they stay so through any lookups:
    the log only ever receives the trimmed identifier of a lookup that
    got past the guard, so that a click on a recent search looks up the
    very entry shown. *)
Theorem recent_searches_are_trimmed storage (page : State)
  (ls : list Lookup) :
  mount (initial storage) = Mounted page ->
  (forall saved,
     storage !! RECENT_SEARCHES = Some (JSON_stringify saved) ->
     Forall trimmed saved) ->
  Forall trimmed (recentSearches (lookups ls page)).
Proof.
  intros Hmount Hstored.
  assert (Hpage : Forall trimmed (recentSearches page)).
  { destruct (mount_cases storage page Hmount)
      as [[-> _]|(saved & Hsaved & ->)]; simpl.
    - constructor.
    - by apply Hstored. }
  clear Hmount. revert Hpage. generalize page.
  induction ls as [|l ls IH]; intros w Hw; [done|].
  apply IH. by apply trimmed_fetchSummary.
Qed.

Lemma recent_searches_are_trimmed_witness :
  mount (initial ∅) = Mounted Scenario.opened
  /\ (forall saved,
        (∅ : gmap jsstring item) !! RECENT_SEARCHES
        = Some (JSON_stringify saved) ->
        Forall trimmed saved)
  /\ Forall trimmed
       (recentSearches
          (lookups
             [{| clock := Scenario.isoNow;
                 settles := Resolved {| status := 200;
                                        body := Some Scenario.foundPayload |};
                 identifier := js " 13000020 " |}]
             Scenario.opened)).
Proof.
  assert (Hmount : mount (initial ∅) = Mounted Scenario.opened)
    by reflexivity.
  assert (Hstored : forall saved,
    (∅ : gmap jsstring item) !! RECENT_SEARCHES
    = Some (JSON_stringify saved) ->
    Forall trimmed saved) by (intros saved Hsaved; done).
  split; [exact Hmount|]. split; [exact Hstored|].
  exact (recent_searches_are_trimmed ∅ Scenario.opened _ Hmount Hstored).
Defined.

(** X17. The search button and the Enter key look up the text of the
    search box exactly as [fetchSummary] would on that text: trimming it
    first changes nothing; any other key does nothing. *)
Theorem search_is_lookup_of_query (e : KeyboardEvent) iso (f : fetched)
  (w : State) :
  handleSearch iso f w = fetchSummary iso f (searchQuery w) w
  /\ (key e = js "Enter" ->
      handleKeyPress e iso f w = fetchSummary iso f (searchQuery w) w)
  /\ (key e <> js "Enter" -> handleKeyPress e iso f w = (Normal tt, w)).
Proof.
  assert (Hsearch : handleSearch iso f w
                    = fetchSummary iso f (searchQuery w) w).
  { unfold handleSearch.
    destruct (text_or_not (searchQuery w)) as [Hblank|Htext].
    - rewrite bool_decide_eq_false_2 by tauto.
      by rewrite fetchSummary_blank.
    - rewrite bool_decide_eq_true_2 by done.
      unfold fetchSummary, fetchSummary_try, connectionFailed.
      by rewrite !trim_idempotent. }
  split; [exact Hsearch|]. unfold handleKeyPress. split.
  - intros ->. by rewrite bool_decide_eq_true_2.
  - intros Hkey. by rewrite bool_decide_eq_false_2.
Qed.

Lemma search_is_lookup_of_query_witness :
  js "Enter" = js "Enter"
  /\ handleKeyPress {| key := js "Enter"; shiftKey := false |}
       Scenario.isoNow Rejected
       (setSearchQuery (js " 13000020 ") Scenario.opened)
     = fetchSummary Scenario.isoNow Rejected (js " 13000020 ")
         (setSearchQuery (js " 13000020 ") Scenario.opened).
Proof.
  split; [reflexivity|].
  exact (proj1 (proj2 (search_is_lookup_of_query
                         {| key := js "Enter"; shiftKey := false |}
                         Scenario.isoNow Rejected
                         (setSearchQuery (js " 13000020 ") Scenario.opened)))
           eq_refl).
Defined.

(** X18. After a lookup that got past its guard the results section is
    never the loading state. Either the values of its expressions, as
    [results] computes them, are obtained without a throw, and then it
    shows a summary only when the response was JSON whose [success] is
    truthy, and it falls back to the empty state, as if nothing had been
    searched, only when the response was a falsy JSON value other than
    [null]; or computing them throws a [TypeError], which happens only
    when the response was JSON whose [success] and [message] are falsy
    and whose [identifier] the template literal of the default message
    cannot print. *)
Theorem results_after_lookup iso (f : fetched) identifier (w : State) :
  trim identifier <> [] ->
  (exists view,
     fst (results (snd (fetchSummary iso f identifier w))) = Normal view
     /\ view <> LoadingState
     /\ (forall timestamp cards summary,
         view = SummaryGenerated timestamp cards summary ->
         exists code data success,
           f = Resolved {| status := code; body := Some data |}
           /\ getProp data (js "success") = Normal success
           /\ ToBoolean success = true)
     /\ (view = EmptyState ->
         exists code data,
           f = Resolved {| status := code; body := Some data |}
           /\ data <> JNull /\ ToBoolean (VJson data) = false))
  \/ (exists code data success message ident,
        f = Resolved {| status := code; body := Some data |}
        /\ getProp data (js "success") = Normal success
        /\ ToBoolean success = false
        /\ getProp data (js "message") = Normal message
        /\ ToBoolean message = false
        /\ getProp data (js "identifier") = Normal ident
        /\ ToStringValue ident = Throw TypeError
        /\ fst (results (snd (fetchSummary iso f identifier w)))
           = Throw TypeError).
Proof.
  intros Htext.
  assert (Hfailed : forall w',
    isLoading w' = false ->
    summaryData w' = connectionFailed identifier iso ->
    exists view,
      fst (results w') = Normal view
      /\ view <> LoadingState
      /\ (forall timestamp cards summary,
          view = SummaryGenerated timestamp cards summary ->
          exists code data success,
            f = Resolved {| status := code; body := Some data |}
            /\ getProp data (js "success") = Normal success
            /\ ToBoolean success = true)
      /\ (view = EmptyState ->
          exists code data,
            f = Resolved {| status := code; body := Some data |}
            /\ data <> JNull /\ ToBoolean (VJson data) = false)).
  { intros w' Hidle Hdata. exists (SummaryNotFound (JStr COULD_NOT_CONNECT)).
    split; [by eapply results_connectionFailed|]. by repeat split. }
  destruct (fetchSummary_cases iso f identifier w Htext)
    as [(e & _ & ->)|[(path & _ & ->)
       |(path & code & data & success & _ & -> & Hsuccess & ->)]];
    [left; by apply Hfailed|left; by apply Hfailed|].
  assert (Hdata : data <> JNull) by (by intros ->).
  unfold results, bind, lift, ret. project.
  destruct (ToBoolean (VJson data)) eqn:Htruthy.
  2: { left. exists EmptyState. repeat split; try done. intros _.
       by exists code, data. }
  rewrite Hsuccess. cbv iota.
  destruct (ToBoolean success) eqn:Hshown.
  - left.
    assert (Hobject : exists fields, data = JObj fields).
    { destruct data as [|b|n|s|items|fields]; [done| | | | |by eexists];
        unfold getProp in Hsuccess; injection Hsuccess as <-; done. }
    destruct Hobject as [fields ->].
    match goal with |- context [ticketCards _ ?w'] =>
      destruct (ticketCards_object fields w') as [cards Hcards] end.
    unfold getProp at 1. cbv iota. rewrite Hcards. cbv iota.
    exists (SummaryGenerated (lookupField (js "timestamp") fields) cards
              (lookupField (js "summary") fields)).
    repeat split; try done. intros _ _ _ _.
    by exists code, (JObj fields), success.
  - assert (Hread : forall name, exists v, getProp data name = Normal v).
    { intros name. destruct data; try done; by eexists. }
    destruct (Hread (js "message")) as [message Hmessage].
    destruct (Hread (js "identifier")) as [ident Hident].
    rewrite Hmessage. cbv iota.
    destruct (ToBoolean message) eqn:Hfalsy.
    { left. destruct message as [|j]; [done|].
      eexists. split; [reflexivity|]. by repeat split. }
    assert (Hdefault : forall w',
      summaryData w' = data ->
      (exists text,
         ToStringValue ident = Normal text
         /\ fst (defaultMessage data w')
            = Normal (SummaryNotFound (JStr (NO_TICKET_FOUND ++ text))))
      \/ (ToStringValue ident = Throw TypeError
          /\ fst (defaultMessage data w') = Throw TypeError)).
    { intros w' _. unfold defaultMessage, bind, lift, ret.
      rewrite Hident. cbv iota.
      destruct (ToStringValue ident) as [text|e] eqn:Hprint.
      - left. by exists text.
      - right. by rewrite (ToStringValue_throws _ _ Hprint). }
    match goal with |- context [fst (?shown ?w') = Normal _] =>
      replace shown with (defaultMessage data) by (by destruct message);
      destruct (Hdefault w' eq_refl) as [(text & _ & Hshow)|[Hprint Hthrow]]
    end.
    + left. exists (SummaryNotFound (JStr (NO_TICKET_FOUND ++ text))).
      split; [exact Hshow|]. by repeat split.
    + right. by exists code, data, success, message, ident.
Qed.

Lemma results_after_lookup_witness :
  trim (js "13000020") <> []
  /\ fst (results
            (snd (fetchSummary Scenario.isoNow
                    (Resolved {| status := 200; body := Some (JNum 0) |})
                    (js "13000020") Scenario.opened)))
     = Normal EmptyState
  /\ fst (results
            (snd (fetchSummary Scenario.isoNow
                    (Resolved {| status := 200;
                                 body := Some Scenario.unprintablePayload |})
                    (js "13000020") Scenario.opened)))
     = Throw TypeError.
Proof.
  assert (Htext : trim (js "13000020") <> []) by (vm_compute; discriminate).
  split; [exact Htext|]. split.
  - destruct (results_after_lookup Scenario.isoNow
                (Resolved {| status := 200; body := Some (JNum 0) |})
                (js "13000020") Scenario.opened Htext)
      as [(view & Hview & _)|(? & ? & ? & ? & ? & _ & _ & _ & _ & _ & _ & _
                              & Hthrow)].
    + rewrite Hview. vm_compute in Hview. by injection Hview as <-.
    + vm_compute in Hthrow. discriminate Hthrow.
  - destruct (results_after_lookup Scenario.isoNow
                (Resolved {| status := 200;
                             body := Some Scenario.unprintablePayload |})
                (js "13000020") Scenario.opened Htext)
      as [(view & Hview & _)|(? & ? & ? & ? & ? & _ & _ & _ & _ & _ & _ & _
                              & Hthrow)].
    + vm_compute in Hview. discriminate Hview.
    + exact Hthrow.
Defined.

End SummaryExtra.
